(** * stream-king: the send-email edge function and the compose form

    A shallow embedding of the two places of the repository that decide
    what an outbound e-mail request does:

    - the [send-email] handler passed to [serve] (authorisation, required
      fields, SMTP configuration lookup, SMTP delivery, [sent_emails]
      bookkeeping, and the [catch] block);
    - [parseEmails], [validateEmails] and [handleSend] of the compose form,
      which build the request the handler receives.

    The handler talks to four collaborators (the identity provider, the
    request body, the database and the SMTP client).  Their answers are the
    fields of a [World]; every call the handler makes is appended to a trace
    of [Event]s, so that statements about "what happened before the call
    returned" are statements about that trace.

    Strings are sequences of code units below 256. *)

From Stdlib Require Import String Ascii List Bool Arith Lia.
From Stdlib Require Import ZArith.
Import ListNotations.
Open Scope string_scope.
Open Scope list_scope.

(** ** JavaScript conventions used by the source *)

Module Js.

(** [!s] for a value that is a string or [undefined]. *)
Definition falsy (s : option string) : bool :=
  match s with
  | None => true
  | Some s => String.eqb s ""
  end.

(** The string behind a truthy [string | undefined] value. *)
Definition truthy (s : option string) : option string :=
  match s with
  | Some s => if String.eqb s "" then None else Some s
  | None => None
  end.

(** [a || null] for a value that is an array or [undefined]: every array,
    the empty one included, is truthy. *)
Definition or_null {A : Type} (a : option (list A)) : option (list A) :=
  match a with
  | Some l => Some l
  | None => None
  end.

(** [b || false] and the destructuring default [b = false]. *)
Definition or_false (b : option bool) : bool :=
  match b with
  | Some true => true
  | _ => false
  end.

(** [s || d] for a string or [undefined]. *)
Definition or_default (s : option string) (d : string) : string :=
  match s with
  | Some s => if String.eqb s "" then d else s
  | None => d
  end.

(** White space and line terminators among the code units below 256:
    TAB, LF, VT, FF, CR, SP and NBSP. *)
Definition is_space (c : ascii) : bool :=
  let n := nat_of_ascii c in
  ((9 <=? n)%nat && (n <=? 13)%nat) || (n =? 32)%nat || (n =? 160)%nat.

Fixpoint trimStart (s : string) : string :=
  match s with
  | EmptyString => EmptyString
  | String c s' => if is_space c then trimStart s' else s
  end.

Fixpoint trimEnd (s : string) : string :=
  match s with
  | EmptyString => EmptyString
  | String c s' =>
      match trimEnd s' with
      | EmptyString => if is_space c then EmptyString else String c EmptyString
      | t => String c t
      end
  end.

(** [s.trim()] *)
Definition trim (s : string) : string := trimEnd (trimStart s).

(** [s.split(sep)] for a one-character separator. *)
Fixpoint split (sep : ascii) (s : string) : list string :=
  match s with
  | EmptyString => [EmptyString]
  | String c s' =>
      if Ascii.eqb c sep then EmptyString :: split sep s'
      else match split sep s' with
           | [] => [String c EmptyString]
           | x :: xs => String c x :: xs
           end
  end.

End Js.

(** ** Data model *)

(** [user] as returned by [auth.getUser()]; only [user.id] is read. *)
Record User := { id : string }.

(** A row of [public.smtp_configs]. *)
Module SmtpConfig.
Record t := {
  id : string;
  user_id : string;
  config_name : string;
  smtp_host : string;
  smtp_port : nat;
  smtp_username : string;
  smtp_password : string;
  from_email : string;
  from_name : option string;
  use_tls : bool;
  is_default : bool
}.
End SmtpConfig.

(** [interface SendEmailRequest], as the parsed JSON body: a field that is
    missing from the body is [undefined]. *)
Module Req.
Record t := {
  smtp_config_id : option string;
  to : option (list string);
  cc : option (list string);
  bcc : option (list string);
  subject : option string;
  body : option string;
  is_html : option bool
}.
End Req.

(** The object given to [.from("sent_emails").insert(...)]. *)
Inductive Status := sent | failed.

Module SentEmail.
Record t := {
  user_id : string;
  smtp_config_id : option string;
  to_emails : option (list string);
  cc_emails : option (list string);
  bcc_emails : option (list string);
  subject : option string;
  body : option string;
  is_html : bool;
  status : Status;
  error_message : option string
}.
End SentEmail.

(** The [connection] option of [new SMTPClient]. *)
Module Connection.
Record t := {
  hostname : string;
  port : nat;
  tls : bool;
  username : string;
  password : string
}.
End Connection.

(** [emailContent], the argument of [client.send]. *)
Module Mail.
Record t := {
  from : string;
  to : list string;
  subject : string;
  cc : option (list string);
  bcc : option (list string);
  html : option string;
  content : option string
}.
End Mail.

(** A thrown value; only [error.message] is read. *)
Record Exn := { exn_message : option string }.

(** The JSON object of a response body. *)
Record Payload := {
  success : bool;
  message : option string;
  error : option string
}.

Record Response := {
  http_status : nat;
  headers : list (string * string);
  payload : option Payload
}.

Definition corsHeaders : list (string * string) :=
  [ ("Access-Control-Allow-Origin", "*");
    ("Access-Control-Allow-Headers",
     "authorization, x-client-info, apikey, content-type") ].

(** [new Response(JSON.stringify(p), { status, headers: {...corsHeaders,
    "Content-Type": "application/json"} })] *)
Definition json_response (st : nat) (p : Payload) : Response :=
  {| http_status := st;
     headers := corsHeaders ++ [("Content-Type", "application/json")];
     payload := Some p |}.

Definition failure (msg : string) : Payload :=
  {| success := false; message := None; error := Some msg |}.

Definition ok_message (msg : string) : Payload :=
  {| success := true; message := Some msg; error := None |}.

(** ** Collaborators *)

(** [await supabaseUser.auth.getUser()] *)
Inductive GetUserResult :=
| GetUserReturns (user : option User) (userError : bool)
| GetUserThrows (e : Exn).

(** [await req.json()] *)
Inductive JsonResult :=
| JsonValue (r : Req.t)
| JsonThrows (e : Exn).

Record World := {
  (** [req.headers.get("Authorization")] *)
  authorization : option string;
  (** the identity provider's answer to the [k]-th [getUser] call made
      with the given Authorization header *)
  auth_getUser : string -> nat -> GetUserResult;
  (** [await req.json()] in the [try] block *)
  req_json : JsonResult;
  (** the rows of [smtp_configs], and whether the select itself fails *)
  smtp_configs : list SmtpConfig.t;
  select_fails : bool;
  (** [await client.send(..)] and [await client.close()]: [None] when the
      promise resolves, [Some e] when it rejects with [e] *)
  client_send : option Exn;
  client_close : option Exn;
  (** whether inserting a row into [sent_emails] reports an error *)
  insert_fails : SentEmail.t -> bool;
  (** [await req.clone().json()] in the [catch] block; a field of its own,
      since a body that was already read need not be readable again *)
  req_clone_json : JsonResult
}.

(** Every call the handler makes to a collaborator. *)
Inductive Event :=
| EvGetUser (authHeader : string)
| EvReadBody
| EvSelectConfig (config_id uid : string)
| EvNewClient (c : Connection.t)
| EvSend (m : Mail.t)
| EvClose
| EvInsert (row : SentEmail.t)
| EvCloneBody.

(** ** The handler monad: a trace of events, and exceptions *)

Inductive Outcome (A : Type) :=
| Value (a : A)
| Thrown (e : Exn).
Arguments Value {A} a.
Arguments Thrown {A} e.

Definition Handler (A : Type) : Type := list Event -> Outcome A * list Event.

Definition ret {A} (a : A) : Handler A := fun tr => (Value a, tr).

Definition throw {A} (e : Exn) : Handler A := fun tr => (Thrown e, tr).

Definition bind {A B} (m : Handler A) (k : A -> Handler B) : Handler B :=
  fun tr =>
    match m tr with
    | (Value a, tr') => k a tr'
    | (Thrown e, tr') => (Thrown e, tr')
    end.

Definition emit (ev : Event) : Handler unit := fun tr => (Value tt, tr ++ [ev]).

Notation "x <- m ;; k" := (bind m (fun x => k))
  (at level 61, m at next level, right associativity).
Notation "m ;;; k" := (bind m (fun _ => k))
  (at level 61, right associativity).

(** [await p] for a promise that resolves ([None]) or rejects ([Some e]). *)
Definition await (p : option Exn) : Handler unit :=
  match p with
  | None => ret tt
  | Some e => throw e
  end.

(** ** The [send-email] handler *)

Fixpoint count_getUser (tr : list Event) : nat :=
  match tr with
  | [] => 0
  | EvGetUser _ :: tr' => S (count_getUser tr')
  | _ :: tr' => count_getUser tr'
  end.

(** [await supabaseUser.auth.getUser()], with the client built from
    [authHeader]: the pair [(user, userError)]. *)
Definition getUser (w : World) (authHeader : string)
  : Handler (option User * bool) :=
  fun tr =>
    let k := count_getUser tr in
    match auth_getUser w authHeader k with
    | GetUserReturns user userError =>
        (Value (user, userError), tr ++ [EvGetUser authHeader])
    | GetUserThrows e => (Thrown e, tr ++ [EvGetUser authHeader])
    end.

Definition read_json (j : JsonResult) : Handler Req.t :=
  match j with
  | JsonValue r => ret r
  | JsonThrows e => throw e
  end.

(** [!smtp_config_id || !to || to.length === 0 || !subject || !body] *)
Definition missing_required_fields (r : Req.t) : bool :=
  Js.falsy (Req.smtp_config_id r)
  || match Req.to r with
     | None => true
     | Some to => (length to =? 0)%nat
     end
  || Js.falsy (Req.subject r)
  || Js.falsy (Req.body r).

(** The four required values of a request that passes the check above. *)
Definition required_fields (r : Req.t)
  : option (string * list string * string * string) :=
  if missing_required_fields r then None
  else
    match Js.truthy (Req.smtp_config_id r), Req.to r,
          Js.truthy (Req.subject r), Js.truthy (Req.body r) with
    | Some smtp_config_id, Some to, Some subject, Some body =>
        Some (smtp_config_id, to, subject, body)
    | _, _, _, _ => None
    end.

(** [.from("smtp_configs").select("*").eq("id", smtp_config_id)
      .eq("user_id", uid).single()]: the row when exactly one matches;
    [None] stands for [configError || !smtpConfig]. *)
Definition matches (smtp_config_id uid : string) (c : SmtpConfig.t) : bool :=
  String.eqb (SmtpConfig.id c) smtp_config_id
  && String.eqb (SmtpConfig.user_id c) uid.

Definition single_config (w : World) (smtp_config_id uid : string)
  : option SmtpConfig.t :=
  if select_fails w then None
  else
    match filter (matches smtp_config_id uid) (smtp_configs w) with
    | [c] => Some c
    | _ => None
    end.

Definition select_config (w : World) (smtp_config_id uid : string)
  : Handler (option SmtpConfig.t) :=
  emit (EvSelectConfig smtp_config_id uid) ;;;
  ret (single_config w smtp_config_id uid).

Definition connection_of (c : SmtpConfig.t) : Connection.t :=
  {| Connection.hostname := SmtpConfig.smtp_host c;
     Connection.port := SmtpConfig.smtp_port c;
     Connection.tls := SmtpConfig.use_tls c;
     Connection.username := SmtpConfig.smtp_username c;
     Connection.password := SmtpConfig.smtp_password c |}.

(** [from_name ? `${from_name} <${from_email}>` : from_email] *)
Definition fromAddress (c : SmtpConfig.t) : string :=
  match Js.truthy (SmtpConfig.from_name c) with
  | Some from_name => from_name ++ " <" ++ SmtpConfig.from_email c ++ ">"
  | None => SmtpConfig.from_email c
  end.

(** [if (cc && cc.length > 0) emailContent.cc = cc] *)
Definition addressed (cc : option (list string)) : option (list string) :=
  match cc with
  | Some l => if (0 <? length l)%nat then Some l else None
  | None => None
  end.

Definition emailContent (c : SmtpConfig.t) (to : list string)
    (cc bcc : option (list string)) (subject body : string) (is_html : bool)
  : Mail.t :=
  {| Mail.from := fromAddress c;
     Mail.to := to;
     Mail.subject := subject;
     Mail.cc := addressed cc;
     Mail.bcc := addressed bcc;
     Mail.html := if is_html then Some body else None;
     Mail.content := if is_html then None else Some body |}.

Definition sent_row (uid smtp_config_id : string) (to : list string)
    (cc bcc : option (list string)) (subject body : string) (is_html : bool)
  : SentEmail.t :=
  {| SentEmail.user_id := uid;
     SentEmail.smtp_config_id := Some smtp_config_id;
     SentEmail.to_emails := Some to;
     SentEmail.cc_emails := Js.or_null cc;
     SentEmail.bcc_emails := Js.or_null bcc;
     SentEmail.subject := Some subject;
     SentEmail.body := Some body;
     SentEmail.is_html := is_html;
     SentEmail.status := sent;
     SentEmail.error_message := None |}.

Definition failed_row (uid : string) (body : Req.t) (error : Exn)
  : SentEmail.t :=
  {| SentEmail.user_id := uid;
     SentEmail.smtp_config_id := Req.smtp_config_id body;
     SentEmail.to_emails := Req.to body;
     SentEmail.cc_emails := Js.or_null (Req.cc body);
     SentEmail.bcc_emails := Js.or_null (Req.bcc body);
     SentEmail.subject := Req.subject body;
     SentEmail.body := Req.body body;
     SentEmail.is_html := Js.or_false (Req.is_html body);
     SentEmail.status := failed;
     SentEmail.error_message := exn_message error |}.

(** [await supabaseAdmin.from("sent_emails").insert(row)]: the reported
    [error], as a boolean.  The query is not in [throwOnError] mode: a
    failed insert resolves with an [error], it does not reject. *)
Definition insert_row (w : World) (row : SentEmail.t) : Handler bool :=
  emit (EvInsert row) ;;;
  ret (insert_fails w row).

(** The body of the [try] block. *)
Definition try_block (w : World) : Handler Response :=
  match Js.truthy (authorization w) with
  | None =>
      ret (json_response 401 (failure "Missing authorization header"))
  | Some authHeader =>
      r <- getUser w authHeader ;;
      match r with
      | (Some user, false) =>
          emit EvReadBody ;;;
          req <- read_json (req_json w) ;;
          match required_fields req with
          | None => ret (json_response 400 (failure "Missing required fields"))
          | Some (smtp_config_id, to, subject, body) =>
              let cc := Req.cc req in
              let bcc := Req.bcc req in
              let is_html := Js.or_false (Req.is_html req) in
              found <- select_config w smtp_config_id (id user) ;;
              match found with
              | None =>
                  ret (json_response 404
                         (failure "SMTP configuration not found"))
              | Some smtpConfig =>
                  emit (EvNewClient (connection_of smtpConfig)) ;;;
                  emit (EvSend (emailContent smtpConfig to cc bcc
                                  subject body is_html)) ;;;
                  await (client_send w) ;;;
                  emit EvClose ;;;
                  await (client_close w) ;;;
                  insertError <- insert_row w
                    (sent_row (id user) smtp_config_id to cc bcc
                       subject body is_html) ;;
                  ret (json_response 200 (ok_message "Email sent successfully"))
              end
          end
      | _ => ret (json_response 401 (failure "Unauthorized"))
      end
  end.

(** The inner [try] of the [catch] block: "Try to save failed email to
    database". *)
Definition save_failed (w : World) (error : Exn) : Handler unit :=
  match Js.truthy (authorization w) with
  | None => ret tt
  | Some authHeader =>
      r <- getUser w authHeader ;;
      match fst r with
      | Some user =>
          emit EvCloneBody ;;;
          body <- read_json (req_clone_json w) ;;
          insert_row w (failed_row (id user) body error) ;;;
          ret tt
      | None => ret tt
      end
  end.

(** [try { h } catch (saveError) { console.error(..) }] *)
Definition swallow (h : Handler unit) (tr : list Event) : list Event :=
  snd (h tr).

Definition catch_block (w : World) (error : Exn) (tr : list Event)
  : Response * list Event :=
  (json_response 500
     (failure (Js.or_default (exn_message error) "Failed to send email")),
   swallow (save_failed w error) tr).

(** One call of the handler on a request that is not a preflight,
    [try { try_block } catch (error) { catch_block }]: the response and the
    calls made, oldest first. *)
Definition dispatch (w : World) : Response * list Event :=
  match try_block w [] with
  | (Value r, tr) => (r, tr)
  | (Thrown error, tr) => catch_block w error tr
  end.

Definition response (w : World) : Response := fst (dispatch w).
Definition trace (w : World) : list Event := snd (dispatch w).

(** [serve]: the CORS preflight is answered before the [try] block. *)
Definition serve (method : string) (w : World) : Response * list Event :=
  if String.eqb method "OPTIONS"
  then ({| http_status := 200; headers := corsHeaders; payload := None |}, [])
  else dispatch w.

(** ** The compose form *)

Module Form.
(** The state read by [handleSend]. *)
Record t := {
  selectedConfig : string;
  to : string;
  cc : string;
  bcc : string;
  subject : string;
  body : string
}.
End Form.

(** What [handleSend] does with a submission: a destructive toast and an
    early [return], or [supabase.functions.invoke('send-email', { body })]. *)
Inductive Submission :=
| Rejected (title description : string)
| Invoked (body : Req.t).

Definition dquote : string := String (ascii_of_nat 34) EmptyString.

(** [input.split(',').map(e => e.trim()).filter(e => e)], or [[]] when
    [!input.trim()]. *)
Definition parseEmails (input : string) : list string :=
  if String.eqb (Js.trim input) "" then []
  else filter (fun e => negb (String.eqb e ""))
         (map Js.trim (Js.split "," input)).

(** [cc: ccEmails.length > 0 ? ccEmails : undefined] *)
Definition nonempty_or_undefined (l : list string) : option (list string) :=
  if (0 <? length l)%nat then Some l else None.

Section Compose.

(** [emailSchema.safeParse(email).success], the address syntax check of
    the zod library. *)
Variable email_ok : string -> bool.

(** [validateEmails]: [None] when it returns [true]; the description of
    the toast it raises for the first address that does not parse when it
    returns [false]. *)
Fixpoint validateEmails (emails : list string) : option string :=
  match emails with
  | [] => None
  | email :: rest =>
      if email_ok email then validateEmails rest
      else Some (dquote ++ email ++ dquote
                 ++ " is not a valid email address.")%string
  end.

Definition handleSend (f : Form.t) : Submission :=
  if String.eqb (Form.selectedConfig f) "" then
    Rejected "No SMTP Configuration"
             "Please configure your SMTP settings first."
  else
    let toEmails := parseEmails (Form.to f) in
    let ccEmails := parseEmails (Form.cc f) in
    let bccEmails := parseEmails (Form.bcc f) in
    if (length toEmails =? 0)%nat then
      Rejected "Missing Recipient" "Please enter at least one recipient."
    else
      match validateEmails (toEmails ++ ccEmails ++ bccEmails) with
      | Some description => Rejected "Invalid Email" description
      | None =>
          if String.eqb (Js.trim (Form.subject f)) "" then
            Rejected "Missing Subject" "Please enter an email subject."
          else
            Invoked
              {| Req.smtp_config_id := Some (Form.selectedConfig f);
                 Req.to := Some toEmails;
                 Req.cc := nonempty_or_undefined ccEmails;
                 Req.bcc := nonempty_or_undefined bccEmails;
                 Req.subject := Some (Js.trim (Form.subject f));
                 Req.body := Some (Js.trim (Form.body f));
                 Req.is_html := Some false |}
      end.

(** The world in which the handler receives [body] as its JSON body. *)
Definition with_body (w : World) (body : Req.t) : World :=
  {| authorization := authorization w;
     auth_getUser := auth_getUser w;
     req_json := JsonValue body;
     smtp_configs := smtp_configs w;
     select_fails := select_fails w;
     client_send := client_send w;
     client_close := client_close w;
     insert_fails := insert_fails w;
     req_clone_json := req_clone_json w |}.

(** A submission of the form, followed by the handler when the form
    invokes it: the calls the handler made. *)
Definition submit (w : World) (f : Form.t) : list Event :=
  match handleSend f with
  | Rejected _ _ => []
  | Invoked body => trace (with_body w body)
  end.

End Compose.

(** ** Observations on traces *)

Definition is_transport (ev : Event) : bool :=
  match ev with
  | EvNewClient _ | EvSend _ | EvClose => true
  | _ => false
  end.

Definition is_open (ev : Event) : bool :=
  match ev with EvNewClient _ => true | _ => false end.

Definition is_send (ev : Event) : bool :=
  match ev with EvSend _ => true | _ => false end.

Definition is_close (ev : Event) : bool :=
  match ev with EvClose => true | _ => false end.

Definition is_insert (ev : Event) : bool :=
  match ev with EvInsert _ => true | _ => false end.

Definition count (p : Event -> bool) (tr : list Event) : nat :=
  length (filter p tr).

(** The addresses of a request: [to], [cc] and [bcc] together. *)
Definition list_of (l : option (list string)) : list string :=
  match l with Some l => l | None => [] end.

Definition recipients (r : Req.t) : list string :=
  list_of (Req.to r) ++ list_of (Req.cc r) ++ list_of (Req.bcc r).

(** ** Sample worlds *)

Definition alice : User := {| id := "user-alice" |}.
Definition bob : User := {| id := "user-bob" |}.

Definition alice_config : SmtpConfig.t :=
  {| SmtpConfig.id := "cfg-1";
     SmtpConfig.user_id := "user-alice";
     SmtpConfig.config_name := "Work";
     SmtpConfig.smtp_host := "smtp.example.com";
     SmtpConfig.smtp_port := 587;
     SmtpConfig.smtp_username := "alice";
     SmtpConfig.smtp_password := "secret";
     SmtpConfig.from_email := "alice@example.com";
     SmtpConfig.from_name := Some "Alice";
     SmtpConfig.use_tls := true;
     SmtpConfig.is_default := true |}.

Definition bob_config : SmtpConfig.t :=
  {| SmtpConfig.id := "cfg-2";
     SmtpConfig.user_id := "user-bob";
     SmtpConfig.config_name := "Home";
     SmtpConfig.smtp_host := "mail.example.org";
     SmtpConfig.smtp_port := 465;
     SmtpConfig.smtp_username := "bob";
     SmtpConfig.smtp_password := "hunter2";
     SmtpConfig.from_email := "bob@example.org";
     SmtpConfig.from_name := None;
     SmtpConfig.use_tls := true;
     SmtpConfig.is_default := false |}.

Definition request (to : list string) (cc bcc : option (list string))
    (subject body : string) : Req.t :=
  {| Req.smtp_config_id := Some "cfg-1";
     Req.to := Some to;
     Req.cc := cc;
     Req.bcc := bcc;
     Req.subject := Some subject;
     Req.body := Some body;
     Req.is_html := None |}.

(** Alice's token resolves to Alice on every call; every other header
    resolves to nobody. *)
Definition resolve_alice (authHeader : string) (k : nat) : GetUserResult :=
  if String.eqb authHeader "Bearer alice"
  then GetUserReturns (Some alice) false
  else GetUserReturns None true.

(** Alice sends [req]; the SMTP client and the database answer as given. *)
Definition alice_world (req : Req.t) (send close : option Exn)
    (insert : bool) : World :=
  {| authorization := Some "Bearer alice";
     auth_getUser := resolve_alice;
     req_json := JsonValue req;
     smtp_configs := [alice_config; bob_config];
     select_fails := false;
     client_send := send;
     client_close := close;
     insert_fails := fun _ => insert;
     req_clone_json := JsonValue req |}.

Definition hello : Req.t := request ["a@x.com"] None None "Hi" "Hello".

Definition refused : Exn := {| exn_message := Some "Connection refused" |}.

(** The SMTP server refuses the connection. *)
Definition world_refused : World := alice_world hello (Some refused) None false.

(** One address of [to] is not an address. *)
Definition bad_address : Req.t :=
  request ["a@x.com"; "not-an-email"] None None "Hi" "Hello".
Definition world_bad_address : World :=
  alice_world bad_address None None false.

(** The subject is a single space. *)
Definition blank_subject : Req.t := request ["a@x.com"] None None " " "Hello".
Definition world_blank_subject : World :=
  alice_world blank_subject None None false.

(** [cc] and [bcc] are empty arrays. *)
Definition empty_cc : Req.t :=
  request ["a@x.com"] (Some []) (Some []) "Hi" "Hello".
Definition world_empty_cc : World := alice_world empty_cc None None false.

(** Alice names Bob's configuration. *)
Definition foreign : Req.t :=
  {| Req.smtp_config_id := Some "cfg-2";
     Req.to := Some ["a@x.com"];
     Req.cc := None;
     Req.bcc := None;
     Req.subject := Some "Hi";
     Req.body := Some "Hello";
     Req.is_html := None |}.
Definition world_foreign : World := alice_world foreign None None false.

(** The mail is delivered and the insert into [sent_emails] fails. *)
Definition world_history_down : World := alice_world hello None None true.

(** No Authorization header. *)
Definition world_anonymous : World :=
  {| authorization := None;
     auth_getUser := resolve_alice;
     req_json := JsonValue hello;
     smtp_configs := [alice_config; bob_config];
     select_fails := false;
     client_send := None;
     client_close := None;
     insert_fails := fun _ => false;
     req_clone_json := JsonValue hello |}.

(** An address check for the examples: the address has an [@]. *)
Definition has_at (s : string) : bool :=
  existsb (Ascii.eqb "@") (list_ascii_of_string s).

Definition typed_bad_address : Form.t :=
  {| Form.selectedConfig := "cfg-1";
     Form.to := "a@x.com, not-an-email";
     Form.cc := "";
     Form.bcc := "";
     Form.subject := "Hi";
     Form.body := "Hello" |}.

(** The subject is the empty string. *)
Definition no_subject : Req.t := request ["a@x.com"] None None "" "Hello".



(** ** The paths through the handler *)

(** The caller is authenticated as [user] and the body parses to [req]. *)
Definition authenticated (w : World) (authHeader : string) (user : User)
  : Prop :=
  Js.truthy (authorization w) = Some authHeader
  /\ auth_getUser w authHeader 0 = GetUserReturns (Some user) false.

Definition accepted (w : World) (authHeader : string) (user : User)
    (req : Req.t) (smtp_config_id : string) (to : list string)
    (subject body : string) (smtpConfig : SmtpConfig.t) : Prop :=
  authenticated w authHeader user
  /\ req_json w = JsonValue req
  /\ required_fields req = Some (smtp_config_id, to, subject, body)
  /\ single_config w smtp_config_id (id user) = Some smtpConfig.

(** The header is missing (or empty, which [!authHeader] treats alike). *)
Definition token_missing (w : World) : Prop :=
  Js.falsy (authorization w) = true.

(** The header is there and the identity provider answers the handler's
    first [getUser] with an error or without a user. *)
Definition token_unknown (w : World) : Prop :=
  exists authHeader user userError,
    Js.truthy (authorization w) = Some authHeader
    /\ auth_getUser w authHeader 0 = GetUserReturns user userError
    /\ (user = None \/ userError = true).

(** The calls made up to and including [client.send]. *)
Definition sending (authHeader : string) (user : User) (req : Req.t)
    (smtp_config_id : string) (to : list string) (subject body : string)
    (smtpConfig : SmtpConfig.t) : list Event :=
  [ EvGetUser authHeader; EvReadBody;
    EvSelectConfig smtp_config_id (id user);
    EvNewClient (connection_of smtpConfig);
    EvSend (emailContent smtpConfig to (Req.cc req) (Req.bcc req)
              subject body (Js.or_false (Req.is_html req))) ].

(** The ways through the [try] block: the value returned or the exception
    thrown, and the calls made. *)
Inductive TryPath (w : World) : Outcome Response * list Event -> Prop :=
| path_missing_header :
    Js.truthy (authorization w) = None ->
    TryPath w (Value (json_response 401
                        (failure "Missing authorization header")), [])
| path_getUser_throws authHeader e :
    Js.truthy (authorization w) = Some authHeader ->
    auth_getUser w authHeader 0 = GetUserThrows e ->
    TryPath w (Thrown e, [EvGetUser authHeader])
| path_unauthorized authHeader user userError :
    Js.truthy (authorization w) = Some authHeader ->
    auth_getUser w authHeader 0 = GetUserReturns user userError ->
    user = None \/ userError = true ->
    TryPath w (Value (json_response 401 (failure "Unauthorized")),
               [EvGetUser authHeader])
| path_json_throws authHeader user e :
    authenticated w authHeader user ->
    req_json w = JsonThrows e ->
    TryPath w (Thrown e, [EvGetUser authHeader; EvReadBody])
| path_missing_fields authHeader user req :
    authenticated w authHeader user ->
    req_json w = JsonValue req ->
    required_fields req = None ->
    TryPath w (Value (json_response 400 (failure "Missing required fields")),
               [EvGetUser authHeader; EvReadBody])
| path_not_found authHeader user req smtp_config_id to subject body :
    authenticated w authHeader user ->
    req_json w = JsonValue req ->
    required_fields req = Some (smtp_config_id, to, subject, body) ->
    single_config w smtp_config_id (id user) = None ->
    TryPath w (Value (json_response 404
                        (failure "SMTP configuration not found")),
               [EvGetUser authHeader; EvReadBody;
                EvSelectConfig smtp_config_id (id user)])
| path_send_throws authHeader user req smtp_config_id to subject body
    smtpConfig e :
    accepted w authHeader user req smtp_config_id to subject body smtpConfig ->
    client_send w = Some e ->
    TryPath w (Thrown e,
               sending authHeader user req smtp_config_id to subject body
                 smtpConfig)
| path_close_throws authHeader user req smtp_config_id to subject body
    smtpConfig e :
    accepted w authHeader user req smtp_config_id to subject body smtpConfig ->
    client_send w = None ->
    client_close w = Some e ->
    TryPath w (Thrown e,
               sending authHeader user req smtp_config_id to subject body
                 smtpConfig ++ [EvClose])
| path_sent authHeader user req smtp_config_id to subject body smtpConfig :
    accepted w authHeader user req smtp_config_id to subject body smtpConfig ->
    client_send w = None ->
    client_close w = None ->
    TryPath w (Value (json_response 200
                        (ok_message "Email sent successfully")),
               sending authHeader user req smtp_config_id to subject body
                 smtpConfig
               ++ [EvClose;
                   EvInsert (sent_row (id user) smtp_config_id to
                               (Req.cc req) (Req.bcc req) subject body
                               (Js.or_false (Req.is_html req)))]).

(** The ways through the inner [try] of the [catch] block: the calls it
    adds, when [k] calls of [getUser] were made before. *)
Inductive SavePath (w : World) (error : Exn) (k : nat) : list Event -> Prop :=
| save_no_header :
    Js.truthy (authorization w) = None ->
    SavePath w error k []
| save_getUser_throws authHeader e :
    Js.truthy (authorization w) = Some authHeader ->
    auth_getUser w authHeader k = GetUserThrows e ->
    SavePath w error k [EvGetUser authHeader]
| save_no_user authHeader userError :
    Js.truthy (authorization w) = Some authHeader ->
    auth_getUser w authHeader k = GetUserReturns None userError ->
    SavePath w error k [EvGetUser authHeader]
| save_clone_throws authHeader user userError e :
    Js.truthy (authorization w) = Some authHeader ->
    auth_getUser w authHeader k = GetUserReturns (Some user) userError ->
    req_clone_json w = JsonThrows e ->
    SavePath w error k [EvGetUser authHeader; EvCloneBody]
| save_inserted authHeader user userError body :
    Js.truthy (authorization w) = Some authHeader ->
    auth_getUser w authHeader k = GetUserReturns (Some user) userError ->
    req_clone_json w = JsonValue body ->
    SavePath w error k
      [EvGetUser authHeader; EvCloneBody;
       EvInsert (failed_row (id user) body error)].

(** One call of the handler: either the [try] block returns, or it throws
    and the [catch] block answers 500 after trying to save the failure. *)
Inductive Path (w : World) : Response * list Event -> Prop :=
| path_returned r tr :
    TryPath w (Value r, tr) ->
    Path w (r, tr)
| path_caught error tr saved :
    TryPath w (Thrown error, tr) ->
    SavePath w error (count_getUser tr) saved ->
    Path w (json_response 500
              (failure (Js.or_default (exn_message error)
                          "Failed to send email")),
            tr ++ saved).

(** ** Variations of a world *)

(** The world in which [smtp_configs] holds [rows]. *)
Definition with_configs (w : World) (rows : list SmtpConfig.t) : World :=
  {| authorization := authorization w;
     auth_getUser := auth_getUser w;
     req_json := req_json w;
     smtp_configs := rows;
     select_fails := select_fails w;
     client_send := client_send w;
     client_close := client_close w;
     insert_fails := insert_fails w;
     req_clone_json := req_clone_json w |}.

(** The rows of [smtp_configs] whose [user_id] is [uid]. *)
Definition owned_by (uid : string) (rows : list SmtpConfig.t)
  : list SmtpConfig.t :=
  filter (fun c => String.eqb (SmtpConfig.user_id c) uid) rows.

Definition is_some {A : Type} (o : option A) : bool :=
  match o with Some _ => true | None => false end.

Definition is_select (ev : Event) : bool :=
  match ev with EvSelectConfig _ _ => true | _ => false end.

(** Alice sends [hello] and everything works. *)
Definition world_hello : World := alice_world hello None None false.

(** The mail and the row of that call. *)
Definition hello_mail : Mail.t :=
  emailContent alice_config ["a@x.com"] None None "Hi" "Hello" false.

Definition hello_row : SentEmail.t :=
  sent_row "user-alice" "cfg-1" ["a@x.com"] None None "Hi" "Hello" false.

(** Alice's request body is not JSON. *)
Definition syntax_error : Exn :=
  {| exn_message := Some "Unexpected token" |}.

Definition world_malformed : World :=
  {| authorization := Some "Bearer alice";
     auth_getUser := resolve_alice;
     req_json := JsonThrows syntax_error;
     smtp_configs := [alice_config; bob_config];
     select_fails := false;
     client_send := None;
     client_close := None;
     insert_fails := fun _ => false;
     req_clone_json := JsonThrows syntax_error |}.

(** ** The rest of the compose form and the Sent view *)

(** [l.join(sep)] *)
Fixpoint join (sep : string) (l : list string) : string :=
  match l with
  | [] => ""
  | [x] => x
  | x :: rest => x ++ sep ++ join sep rest
  end.

(** The string is made of white space only. *)
Definition blank (s : string) : bool :=
  forallb Js.is_space (list_ascii_of_string s).

Definition has_comma (s : string) : bool :=
  existsb (Ascii.eqb ",") (list_ascii_of_string s).

(** An address as [parseEmails] returns them: not empty, without a comma
    and without white space around it. *)
Definition clean_address (e : string) : Prop :=
  e <> "" /\ Js.trim e = e /\ has_comma e = false.

(** The string is made of white space and commas only. *)
Definition only_separators (s : string) : bool :=
  forallb (fun c => Js.is_space c || Ascii.eqb c ",")
    (list_ascii_of_string s).

(** What [handleSend] shows after the handler was invoked: the toast
    "Email Sent!" or the destructive toast "Failed to Send". *)
Inductive Notice :=
| EmailSent
| FailedToSend (description : string).

(** [{ data, error }], as [supabase.functions.invoke] resolves. *)
Record Invocation := {
  data : option Payload;
  invoke_error : option Exn
}.

(** [setTo(''); setCc(''); setBcc(''); setSubject(''); setBody('')] *)
Definition cleared (f : Form.t) : Form.t :=
  {| Form.selectedConfig := Form.selectedConfig f;
     Form.to := "";
     Form.cc := "";
     Form.bcc := "";
     Form.subject := "";
     Form.body := "" |}.

Section Report.

(** What reading [data.success] throws when [data] is [null]. *)
Variable typeError : Exn.

(** The error the [try] block of [handleSend] throws after the
    invocation, if any: [error] itself, or
    [new Error(data.error || 'Failed to send email')] when [data.success]
    is false. *)
Definition thrown_after (i : Invocation) : option Exn :=
  match invoke_error i with
  | Some e => Some e
  | None =>
      match data i with
      | None => Some typeError
      | Some p =>
          if success p then None
          else Some {| exn_message :=
                         Some (Js.or_default (error p)
                                 "Failed to send email") |}
      end
  end.

(** The end of [handleSend]: the toast, the fields of the form and the
    [showCcBcc] flag afterwards. *)
Definition report (f : Form.t) (showCcBcc : bool) (i : Invocation)
  : Notice * Form.t * bool :=
  match thrown_after i with
  | None => (EmailSent, cleared f, false)
  | Some e =>
      (FailedToSend
         (Js.or_default (exn_message e)
            "An error occurred while sending the email."),
       f, showCcBcc)
  end.

(** [email_ok] is the address check, [invoke] the functions client: how it
    turns the response of the handler into [{ data, error }]. *)
Variable email_ok : string -> bool.
Variable invoke : Response -> Invocation.

(** All of [handleSend] against a world: [None] when the form rejected the
    submission before invoking the handler. *)
Definition send_and_report (w : World) (f : Form.t) (showCcBcc : bool)
  : option (Notice * Form.t * bool) :=
  match handleSend email_ok f with
  | Rejected _ _ => None
  | Invoked body =>
      Some (report f showCcBcc (invoke (response (with_body w body))))
  end.

End Report.

(** The functions client for the examples: the body of a 2xx response as
    [data], an error for any other status. *)
Definition http_error : Exn :=
  {| exn_message := Some "Edge Function returned a non-2xx status code" |}.

Definition sample_invoke (r : Response) : Invocation :=
  if ((200 <=? http_status r) && (http_status r <? 300))%nat
  then {| data := payload r; invoke_error := None |}
  else {| data := None; invoke_error := Some http_error |}.

Definition typed_hello : Form.t :=
  {| Form.selectedConfig := "cfg-1";
     Form.to := " a@x.com ";
     Form.cc := "";
     Form.bcc := "";
     Form.subject := " Hi ";
     Form.body := "Hello" |}.

Definition typed_blank_body : Form.t :=
  {| Form.selectedConfig := "cfg-1";
     Form.to := "a@x.com";
     Form.cc := "";
     Form.bcc := "";
     Form.subject := "Hi";
     Form.body := "  " |}.

(** The request the form builds from [typed_hello]. *)
Definition typed_hello_request : Req.t :=
  {| Req.smtp_config_id := Some "cfg-1";
     Req.to := Some ["a@x.com"];
     Req.cc := None;
     Req.bcc := None;
     Req.subject := Some "Hi";
     Req.body := Some "Hello";
     Req.is_html := Some false |}.

(** ** The SMTP settings page *)

(** [formData], the object validated by [smtpSchema] and written to
    [smtp_configs]. *)
Module FormData.
Record t := {
  config_name : string;
  smtp_host : string;
  smtp_port : Z;
  smtp_username : string;
  smtp_password : string;
  from_email : string;
  from_name : option string;
  use_tls : bool;
  is_default : bool
}.
End FormData.

(** The state of the settings page that [handleSave], [resetForm] and
    [openEditDialog] read and write. *)
Module Settings.
Record t := {
  configName : string;
  smtpHost : string;
  smtpPort : Z;
  smtpUsername : string;
  smtpPassword : string;
  fromEmail : string;
  fromName : string;
  useTls : bool;
  isDefault : bool;
  editingConfig : option SmtpConfig.t;
  isDialogOpen : bool
}.
End Settings.

(** [setIsDialogOpen(b)] *)
Definition setIsDialogOpen (b : bool) (s : Settings.t) : Settings.t :=
  {| Settings.configName := Settings.configName s;
     Settings.smtpHost := Settings.smtpHost s;
     Settings.smtpPort := Settings.smtpPort s;
     Settings.smtpUsername := Settings.smtpUsername s;
     Settings.smtpPassword := Settings.smtpPassword s;
     Settings.fromEmail := Settings.fromEmail s;
     Settings.fromName := Settings.fromName s;
     Settings.useTls := Settings.useTls s;
     Settings.isDefault := Settings.isDefault s;
     Settings.editingConfig := Settings.editingConfig s;
     Settings.isDialogOpen := b |}.

(** [resetForm] *)
Definition resetForm (s : Settings.t) : Settings.t :=
  {| Settings.configName := "";
     Settings.smtpHost := "";
     Settings.smtpPort := 587;
     Settings.smtpUsername := "";
     Settings.smtpPassword := "";
     Settings.fromEmail := "";
     Settings.fromName := "";
     Settings.useTls := true;
     Settings.isDefault := false;
     Settings.editingConfig := None;
     Settings.isDialogOpen := Settings.isDialogOpen s |}.

(** [openEditDialog(config)]: every field is set from [config], with
    [config.from_name || ''] as the name. *)
Definition openEditDialog (config : SmtpConfig.t) : Settings.t :=
  {| Settings.configName := SmtpConfig.config_name config;
     Settings.smtpHost := SmtpConfig.smtp_host config;
     Settings.smtpPort := Z.of_nat (SmtpConfig.smtp_port config);
     Settings.smtpUsername := SmtpConfig.smtp_username config;
     Settings.smtpPassword := SmtpConfig.smtp_password config;
     Settings.fromEmail := SmtpConfig.from_email config;
     Settings.fromName := Js.or_default (SmtpConfig.from_name config) "";
     Settings.useTls := SmtpConfig.use_tls config;
     Settings.isDefault := SmtpConfig.is_default config;
     Settings.editingConfig := Some config;
     Settings.isDialogOpen := true |}.

(** The [formData] of [handleSave]: every text field trimmed except the
    password; [fromName.trim() || null]. *)
Definition formData (s : Settings.t) : FormData.t :=
  {| FormData.config_name := Js.trim (Settings.configName s);
     FormData.smtp_host := Js.trim (Settings.smtpHost s);
     FormData.smtp_port := Settings.smtpPort s;
     FormData.smtp_username := Js.trim (Settings.smtpUsername s);
     FormData.smtp_password := Settings.smtpPassword s;
     FormData.from_email := Js.trim (Settings.fromEmail s);
     FormData.from_name := Js.truthy (Some (Js.trim (Settings.fromName s)));
     FormData.use_tls := Settings.useTls s;
     FormData.is_default := Settings.isDefault s |}.

(** The issues [smtpSchema] can raise, one per check of the schema. *)
Inductive Issue :=
| ConfigNameRequired
| HostRequired
| PortTooSmall
| PortTooLarge
| UsernameRequired
| PasswordRequired
| InvalidFromEmail
| FromNameNotString.

(** The message the schema gives for an issue; [None] where the schema
    gives none and the library's own text is used. *)
Definition issue_message (i : Issue) : option string :=
  match i with
  | ConfigNameRequired => Some "Configuration name is required"
  | HostRequired => Some "SMTP host is required"
  | PortTooSmall => None
  | PortTooLarge => Some "Invalid port number"
  | UsernameRequired => Some "SMTP username is required"
  | PasswordRequired => Some "SMTP password is required"
  | InvalidFromEmail => Some "Invalid email address"
  | FromNameNotString => None
  end.

Definition issue_if (b : bool) (i : Issue) : list Issue :=
  if b then [i] else [].

Section SettingsPage.

Variable email_ok : string -> bool.

(** [smtpSchema.safeParse(formData).error.errors]: the issues in the order
    of the keys of the schema.  [z.string().min(1)] rejects the empty
    string, [z.number().min(1).max(65535)] a port outside 1..65535, and
    [z.string().optional()] admits [undefined] but not the [null] that
    [formData] holds for an empty name. *)
Definition smtpSchema_issues (d : FormData.t) : list Issue :=
  issue_if (String.eqb (FormData.config_name d) "") ConfigNameRequired
  ++ issue_if (String.eqb (FormData.smtp_host d) "") HostRequired
  ++ issue_if (FormData.smtp_port d <? 1)%Z PortTooSmall
  ++ issue_if (65535 <? FormData.smtp_port d)%Z PortTooLarge
  ++ issue_if (String.eqb (FormData.smtp_username d) "") UsernameRequired
  ++ issue_if (String.eqb (FormData.smtp_password d) "") PasswordRequired
  ++ issue_if (negb (email_ok (FormData.from_email d))) InvalidFromEmail
  ++ issue_if (negb (is_some (FormData.from_name d))) FromNameNotString.

(** The write [handleSave] asks of the database. *)
Inductive DbCall :=
| DbUpdate (config_id : string) (d : FormData.t)
| DbInsert (d : FormData.t) (user_id : option string).

Inductive SaveToast :=
| ValidationError (first : Issue)
| ConfigurationUpdated
| ConfigurationAdded
| SaveError (description : string).

(** [handleSave], for the signed-in [user] (if any) and a database that
    answers the write with [db_error]: the toast, the write asked for (if
    any) and the state of the page afterwards. *)
Definition handleSave (user : option User) (db_error : option Exn)
    (s : Settings.t) : SaveToast * option DbCall * Settings.t :=
  let d := formData s in
  match smtpSchema_issues d with
  | first :: _ => (ValidationError first, None, s)
  | [] =>
      let call :=
        match Settings.editingConfig s with
        | Some editing => DbUpdate (SmtpConfig.id editing) d
        | None => DbInsert d (option_map id user)
        end in
      match db_error with
      | Some e =>
          (SaveError (Js.or_default (exn_message e)
                        "Failed to save configuration."),
           Some call, s)
      | None =>
          (match Settings.editingConfig s with
           | Some _ => ConfigurationUpdated
           | None => ConfigurationAdded
           end,
           Some call, resetForm (setIsDialogOpen false s))
      end
  end.

End SettingsPage.

(** The data of a write. *)
Definition written (c : DbCall) : FormData.t :=
  match c with
  | DbUpdate _ d => d
  | DbInsert d _ => d
  end.

(** The row [config] of [smtp_configs] holds the data [d]. *)
Definition holds (config : SmtpConfig.t) (d : FormData.t) : Prop :=
  SmtpConfig.config_name config = FormData.config_name d
  /\ SmtpConfig.smtp_host config = FormData.smtp_host d
  /\ Z.of_nat (SmtpConfig.smtp_port config) = FormData.smtp_port d
  /\ SmtpConfig.smtp_username config = FormData.smtp_username d
  /\ SmtpConfig.smtp_password config = FormData.smtp_password d
  /\ SmtpConfig.from_email config = FormData.from_email d
  /\ SmtpConfig.from_name config = FormData.from_name d
  /\ SmtpConfig.use_tls config = FormData.use_tls d
  /\ SmtpConfig.is_default config = FormData.is_default d.

(** Alice fills the settings dialog for her first configuration. *)
Definition alice_settings : Settings.t :=
  {| Settings.configName := " Work ";
     Settings.smtpHost := "smtp.example.com";
     Settings.smtpPort := 587;
     Settings.smtpUsername := "alice";
     Settings.smtpPassword := " secret ";
     Settings.fromEmail := "alice@example.com";
     Settings.fromName := "Alice";
     Settings.useTls := true;
     Settings.isDefault := true;
     Settings.editingConfig := None;
     Settings.isDialogOpen := true |}.

(** The row Alice's first save creates. *)
Definition alice_saved : SmtpConfig.t :=
  {| SmtpConfig.id := "cfg-9";
     SmtpConfig.user_id := "user-alice";
     SmtpConfig.config_name := "Work";
     SmtpConfig.smtp_host := "smtp.example.com";
     SmtpConfig.smtp_port := 587;
     SmtpConfig.smtp_username := "alice";
     SmtpConfig.smtp_password := " secret ";
     SmtpConfig.from_email := "alice@example.com";
     SmtpConfig.from_name := Some "Alice";
     SmtpConfig.use_tls := true;
     SmtpConfig.is_default := true |}.

(** ** The sign-in page *)

Module AuthForm.
Record t := {
  isLogin : bool;
  email : string;
  password : string;
  displayName : string
}.
End AuthForm.

(** The [errors] state: [{ email?: string; password?: string }]. *)
Record AuthErrors := {
  email_error : option string;
  password_error : option string
}.

(** [s.includes(sub)] *)
Fixpoint includes (sub s : string) : bool :=
  String.prefix sub s
  || match s with
     | EmptyString => false
     | String _ s' => includes sub s'
     end.

(** [await signIn(..)] or [await signUp(..)]: [{ error }], or a rejected
    promise. *)
Inductive AuthAnswer :=
| AuthReturns (error : option Exn)
| AuthRejects.

Inductive AuthCall :=
| SignIn (email password : string)
| SignUp (email password displayName : string).

Inductive AuthToast :=
| LoginFailed (description : option string)
| WelcomeBack
| SignUpFailed (description : option string)
| AccountCreated
| UnexpectedError.

Section AuthPage.

Variable email_ok : string -> bool.

(** [validateForm]: the errors it sets; it returns [true] when there is
    none. *)
Definition validateForm (f : AuthForm.t) : AuthErrors :=
  {| email_error :=
       if email_ok (AuthForm.email f) then None
       else Some "Please enter a valid email address";
     password_error :=
       if (String.length (AuthForm.password f) <? 6)%nat
       then Some "Password must be at least 6 characters"
       else None |}.

Definition no_errors (e : AuthErrors) : bool :=
  negb (is_some (email_error e)) && negb (is_some (password_error e)).

(** [handleSubmit]: the errors set, the call made to the identity provider
    (if any) and the toast shown (if any), when the provider answers
    [answer]. *)
Definition handleSubmit (answer : AuthAnswer) (f : AuthForm.t)
  : AuthErrors * option AuthCall * option AuthToast :=
  let errors := validateForm f in
  if negb (no_errors errors) then (errors, None, None)
  else if AuthForm.isLogin f then
    (errors,
     Some (SignIn (AuthForm.email f) (AuthForm.password f)),
     Some match answer with
          | AuthRejects => UnexpectedError
          | AuthReturns None => WelcomeBack
          | AuthReturns (Some error) =>
              LoginFailed
                match exn_message error with
                | Some m =>
                    if String.eqb m "Invalid login credentials"
                    then Some "Invalid email or password. Please try again."
                    else Some m
                | None => None
                end
          end)
  else
    (errors,
     Some (SignUp (AuthForm.email f) (AuthForm.password f)
             (AuthForm.displayName f)),
     Some match answer with
          | AuthRejects => UnexpectedError
          | AuthReturns None => AccountCreated
          | AuthReturns (Some error) =>
              match exn_message error with
              | Some m =>
                  SignUpFailed
                    (if includes "already registered" m
                     then Some "This email is already registered. Please log in instead."
                     else Some m)
              | None => UnexpectedError
              end
          end).

End AuthPage.

(** The identity provider is unreachable for the first [getUser] and
    answers the second one: the body has not been read when the [catch]
    block runs. *)
Definition outage : Exn := {| exn_message := Some "fetch failed" |}.

Definition resolve_after_outage (authHeader : string) (k : nat)
  : GetUserResult :=
  if (k =? 0)%nat then GetUserThrows outage else resolve_alice authHeader k.

Definition world_auth_outage : World :=
  {| authorization := Some "Bearer alice";
     auth_getUser := resolve_after_outage;
     req_json := JsonValue hello;
     smtp_configs := [alice_config; bob_config];
     select_fails := false;
     client_send := None;
     client_close := None;
     insert_fails := fun _ => false;
     req_clone_json := JsonValue hello |}.

Definition outage_row : SentEmail.t := failed_row (id alice) hello outage.

(** Alice sends with one [cc] address and an empty [bcc] array. *)
Definition with_cc : Req.t :=
  request ["a@x.com"] (Some ["c@x.com"]) (Some []) "Hi" "Hello".

Definition world_with_cc : World := alice_world with_cc None None false.

Definition cc_mail : Mail.t :=
  emailContent alice_config ["a@x.com"] (Some ["c@x.com"]) (Some []) "Hi"
    "Hello" false.

Definition cc_row : SentEmail.t :=
  sent_row "user-alice" "cfg-1" ["a@x.com"] (Some ["c@x.com"]) (Some [])
    "Hi" "Hello" false.

Lemma try_block_path (w : World) : TryPath w (try_block w []).
Proof.
  unfold try_block.
  destruct (Js.truthy (authorization w)) as [authHeader|] eqn:Hauth;
    [|now apply path_missing_header].
  unfold bind at 1, getUser; cbn.
  destruct (auth_getUser w authHeader 0) as [[user|] [|]|e] eqn:Hget;
    try (eapply path_unauthorized; eauto; fail);
    [|eapply path_getUser_throws; eauto].
  assert (Hok : authenticated w authHeader user) by (split; assumption).
  unfold bind, emit, read_json; cbn.
  destruct (req_json w) as [req|e] eqn:Hjson; cbn;
    [|eapply path_json_throws; eauto].
  destruct (required_fields req) as [[[[smtp_config_id to] subject] body]|]
    eqn:Hreq; cbn; [|eapply path_missing_fields; eauto].
  unfold select_config, bind, emit, ret; cbn.
  destruct (single_config w smtp_config_id (id user)) as [smtpConfig|]
    eqn:Hcfg; [|eapply path_not_found; eauto].
  assert (Hacc : accepted w authHeader user req smtp_config_id to subject
                   body smtpConfig) by (repeat split; auto; apply Hok).
  unfold await, insert_row, bind, emit, ret, throw.
  destruct (client_send w) as [e|] eqn:Hsend; cbn;
    [eapply path_send_throws; eauto|].
  destruct (client_close w) as [e|] eqn:Hclose; cbn;
    [eapply (path_close_throws w); eauto|].
  eapply (path_sent w); eauto.
Qed.

Lemma save_failed_path (w : World) (error : Exn) (tr : list Event) :
  exists saved,
    swallow (save_failed w error) tr = tr ++ saved
    /\ SavePath w error (count_getUser tr) saved.
Proof.
  unfold swallow, save_failed.
  destruct (Js.truthy (authorization w)) as [authHeader|] eqn:Hauth.
  2:{ exists []. rewrite app_nil_r. split; [reflexivity|].
      now apply save_no_header. }
  unfold bind at 1, getUser.
  destruct (auth_getUser w authHeader (count_getUser tr))
    as [[user|] userError|e] eqn:Hget; cbn.
  - unfold bind, emit, read_json, insert_row, ret, throw; cbn.
    destruct (req_clone_json w) as [body|e] eqn:Hclone; cbn.
    + eexists. split; [|eapply save_inserted; eauto].
      now rewrite <- !app_assoc.
    + eexists. split; [|eapply save_clone_throws; eauto].
      now rewrite <- !app_assoc.
  - eexists. split; [reflexivity|]. eapply save_no_user; eauto.
  - eexists. split; [reflexivity|]. eapply save_getUser_throws; eauto.
Qed.

(** Every call of the handler follows one of the paths. *)
Lemma dispatch_path (w : World) : Path w (dispatch w).
Proof.
  unfold dispatch.
  pose proof (try_block_path w) as Htry.
  destruct (try_block w []) as [[r|error] tr].
  - now apply path_returned.
  - unfold catch_block.
    destruct (save_failed_path w error tr) as (saved & -> & Hsave).
    now apply path_caught.
Qed.

(** Case analysis on the path a call follows. *)
Ltac follow w :=
  let P := fresh "P" in
  let T := fresh "T" in
  let S := fresh "S" in
  pose proof (dispatch_path w) as P;
  unfold response, trace in *;
  destruct (dispatch w) as [?r ?tr];
  inversion P as [? ? T | ? ? ? T S]; subst; clear P;
  inversion T; subst; clear T;
  try (inversion S; subst; clear S);
  unfold sending in *; cbn [fst snd app count_getUser] in *.

Ltac open_accepted :=
  repeat match goal with
    | H : accepted _ _ _ _ _ _ _ _ _ |- _ => destruct H as (? & ? & ? & ?)
    | H : authenticated _ _ _ |- _ => destruct H as (? & ?)
    end.

Ltac in_trace :=
  repeat match goal with
    | H : In _ (_ :: _) |- _ => destruct H as [H|H]
    | H : In _ [] |- _ => destruct H
    | H : _ \/ False |- _ => destruct H as [H|[]]
    | H : False |- _ => destruct H
    | H : _ = ?v :> Event |- _ => is_var v; subst v
    | H : _ = _ :> Event |- _ => first [discriminate H | injection H as H; subst]
    | H : (_ = _ :> Event) \/ _ |- _ => destruct H as [H|H]
    end.

(** Two answers of the same collaborator to the same question agree. *)
Ltac same_answer :=
  repeat match goal with
    | H1 : ?x = ?a, H2 : ?x = ?b |- _ =>
        tryif is_var x then fail else
          (rewrite H1 in H2; inversion H2; subst; clear H2)
    end.

(** ** Facts about the JavaScript conventions *)

Lemma truthy_Some (o : option string) (s : string) :
  Js.truthy o = Some s -> o = Some s /\ s <> "".
Proof.
  destruct o as [t|]; cbn; [|discriminate].
  destruct (String.eqb_spec t ""); [discriminate|].
  intros [= ->]. now split.
Qed.

Lemma truthy_None (o : option string) :
  Js.truthy o = None <-> Js.falsy o = true.
Proof.
  destruct o as [t|]; cbn; [|tauto].
  destruct (String.eqb t ""); split; congruence.
Qed.

Lemma required_fields_None (req : Req.t) :
  required_fields req = None <-> missing_required_fields req = true.
Proof.
  unfold required_fields.
  destruct (missing_required_fields req) eqn:Hm; [tauto|].
  split; [|discriminate].
  unfold missing_required_fields in Hm.
  repeat (apply orb_false_iff in Hm; destruct Hm as [Hm ?]).
  destruct (Req.to req); [|discriminate].
  destruct (Js.truthy (Req.smtp_config_id req)) eqn:H2;
    [|apply truthy_None in H2; congruence].
  destruct (Js.truthy (Req.subject req)) eqn:H3;
    [|apply truthy_None in H3; congruence].
  destruct (Js.truthy (Req.body req)) eqn:H4;
    [|apply truthy_None in H4; congruence].
  discriminate.
Qed.

Lemma required_fields_Some (req : Req.t) smtp_config_id to subject body :
  required_fields req = Some (smtp_config_id, to, subject, body) ->
  Req.smtp_config_id req = Some smtp_config_id
  /\ Req.to req = Some to
  /\ Req.subject req = Some subject
  /\ Req.body req = Some body
  /\ smtp_config_id <> "" /\ to <> [] /\ subject <> "" /\ body <> "".
Proof.
  unfold required_fields.
  destruct (missing_required_fields req) eqn:Hm; [discriminate|].
  unfold missing_required_fields in Hm.
  repeat (apply orb_false_iff in Hm; destruct Hm as [Hm ?]).
  destruct (Js.truthy (Req.smtp_config_id req)) eqn:H2; [|discriminate].
  destruct (Req.to req) as [l|]; [|discriminate].
  destruct (Js.truthy (Req.subject req)) eqn:H3; [|discriminate].
  destruct (Js.truthy (Req.body req)) eqn:H4; [|discriminate].
  intros [= -> -> -> ->].
  apply truthy_Some in H2, H3, H4.
  destruct H2, H3, H4.
  repeat split; auto.
  intros ->. discriminate.
Qed.

(** ** Properties of the handler *)

(** [serve] answers a preflight without calling anyone, and hands every
    other request to [dispatch]. *)
Lemma serve_preflight (w : World) :
  serve "OPTIONS" w =
    ({| http_status := 200; headers := corsHeaders; payload := None |}, []).
Proof. reflexivity. Qed.

Lemma serve_dispatch (method : string) (w : World) :
  method <> "OPTIONS" -> serve method w = dispatch w.
Proof.
  intros Hm. unfold serve.
  destruct (String.eqb_spec method "OPTIONS"); [contradiction|reflexivity].
Qed.

(** Every response of [dispatch] carries the CORS headers. *)
Lemma dispatch_cors (w : World) (h : string * string) :
  In h corsHeaders -> In h (headers (response w)).
Proof.
  intros Hh. follow w; unfold json_response, headers;
    apply in_or_app; now left.
Qed.

(** C7: one call of the handler makes at most one [client.send] and at
    most one insert into [sent_emails], whichever path it follows, the
    paths through the [catch] block included. *)
Theorem at_most_one_send_and_insert (w : World) :
  count is_send (trace w) <= 1 /\ count is_insert (trace w) <= 1.
Proof.
  follow w; cbn; split; lia.
Qed.

(** C10: every row the handler inserts carries the id of a user that the
    identity provider returned, during this call, for the Authorization
    header of the request: the first answer (without error) for a [sent]
    row, the second answer for a [failed] row. *)
Theorem inserted_row_belongs_to_caller (w : World) (row : SentEmail.t) :
  In (EvInsert row) (trace w) ->
  exists authHeader k user userError,
    authorization w = Some authHeader
    /\ authHeader <> ""
    /\ auth_getUser w authHeader k = GetUserReturns (Some user) userError
    /\ SentEmail.user_id row = id user
    /\ ((SentEmail.status row = sent /\ k = 0 /\ userError = false)
        \/ (SentEmail.status row = failed /\ k = 1)).
Proof.
  intros Hin.
  follow w; in_trace; open_accepted;
    match goal with
    | Ha : Js.truthy (authorization w) = Some ?tok,
      Hg : auth_getUser w ?tok 1 = GetUserReturns (Some ?u) ?err
      |- context [failed_row (id ?u)] =>
        exists tok, 1, u, err; apply truthy_Some in Ha as [? ?];
        repeat (split; auto); right; auto
    | Ha : Js.truthy (authorization w) = Some ?tok,
      Hg : auth_getUser w ?tok 0 = GetUserReturns (Some ?u) false
      |- context [sent_row (id ?u)] =>
        exists tok, 0, u, false; apply truthy_Some in Ha as [? ?];
        repeat (split; auto); left; auto
    end.
Qed.

(** C9: without a token, or with one the identity provider does not
    resolve, the answer is 401 with [success: false] and the only call made
    is the [getUser] itself: the body is not read, no configuration is
    looked up, no SMTP client is built, nothing is inserted.  And whenever
    the answer is 401, 400 or 404, no SMTP call and no insert was made. *)
Theorem auth_and_validation_errors_stop_before_network (w : World) :
  (token_missing w \/ token_unknown w ->
   http_status (response w) = 401
   /\ (exists msg, payload (response w) = Some (failure msg))
   /\ forall ev, In ev (trace w) -> exists authHeader, ev = EvGetUser authHeader)
  /\ (http_status (response w) = 401 \/ http_status (response w) = 400
      \/ http_status (response w) = 404 ->
      forall ev, In ev (trace w) -> is_transport ev = false /\ is_insert ev = false).
Proof.
  split.
  - intros [Hm | (authHeader & user & userError & Ha & Hg & Hu)].
    + apply truthy_None in Hm.
      follow w; open_accepted; try congruence.
      cbn. repeat split; eauto. intros ev [].
    + follow w; open_accepted; same_answer;
        try (destruct Hu; congruence);
        cbn; repeat split; eauto; intros ev Hin; in_trace; eauto.
  - intros Hst ev Hin.
    follow w; cbn in Hst; try (exfalso; lia);
      in_trace; cbn; auto.
Qed.

(** C6: when [client.send] and [client.close] both succeed and the insert
    into [sent_emails] this call makes reports an error, the answer still
    has status 200 and a body with [success: true], the message "Email sent
    successfully" and no [error]; the insert was attempted, with status
    [sent], and failed. *)
Theorem delivered_mail_reports_success (w : World) :
  (exists m, In (EvSend m) (trace w)) ->
  client_send w = None ->
  client_close w = None ->
  (forall row, In (EvInsert row) (trace w) -> insert_fails w row = true) ->
  http_status (response w) = 200
  /\ (exists p,
        payload (response w) = Some p
        /\ success p = true
        /\ message p = Some "Email sent successfully"
        /\ error p = None)
  /\ response w = json_response 200 (ok_message "Email sent successfully")
  /\ exists row,
       In (EvInsert row) (trace w)
       /\ SentEmail.status row = sent
       /\ insert_fails w row = true.
Proof.
  intros [m Hin] Hsend Hclose Hins.
  follow w; in_trace; open_accepted; same_answer.
  split; [reflexivity|]. split; [|split; [reflexivity|]].
  - eexists. repeat split.
  - eexists. split; [do 6 right; left; reflexivity|].
    split; [reflexivity|]. apply Hins. do 6 right. left. reflexivity.
Qed.

Lemma no_match_no_config (w : World) (smtp_config_id uid : string) :
  (forall c, In c (smtp_configs w) ->
             SmtpConfig.id c = smtp_config_id -> SmtpConfig.user_id c <> uid) ->
  single_config w smtp_config_id uid = None.
Proof.
  intros Hnone. unfold single_config.
  destruct (select_fails w); [reflexivity|].
  replace (filter (matches smtp_config_id uid) (smtp_configs w)) with
    (@nil SmtpConfig.t); [reflexivity|].
  symmetry.
  induction (smtp_configs w) as [|c cs IH]; [reflexivity|].
  cbn. unfold matches at 1.
  destruct (String.eqb_spec (SmtpConfig.id c) smtp_config_id) as [Hid|_];
    cbn.
  - destruct (String.eqb_spec (SmtpConfig.user_id c) uid) as [Huid|_].
    + exfalso. apply (Hnone c); [now left|assumption|assumption].
    + apply IH. intros c' Hc'. apply Hnone. now right.
  - apply IH. intros c' Hc'. apply Hnone. now right.
Qed.

(** C5: an authenticated caller who names a configuration that no row of
    [smtp_configs] has under the caller's own user id (no such id, or a row
    of another user) gets 404 with the fixed body "SMTP configuration not
    found", not 401; the calls made are [getUser], the body read and the
    select: no SMTP call, no insert. *)
Theorem foreign_configuration_is_not_found (w : World) (authHeader : string)
    (user : User) (req : Req.t) (smtp_config_id : string) (to : list string)
    (subject body : string) :
  authenticated w authHeader user ->
  req_json w = JsonValue req ->
  required_fields req = Some (smtp_config_id, to, subject, body) ->
  (forall c, In c (smtp_configs w) ->
             SmtpConfig.id c = smtp_config_id ->
             SmtpConfig.user_id c <> id user) ->
  dispatch w =
    (json_response 404 (failure "SMTP configuration not found"),
     [EvGetUser authHeader; EvReadBody;
      EvSelectConfig smtp_config_id (id user)])
  /\ http_status (response w) = 404
  /\ count is_insert (trace w) = 0.
Proof.
  intros [Ha Hg] Hjson Hreq Hnone.
  apply no_match_no_config in Hnone.
  assert (E : dispatch w =
    (json_response 404 (failure "SMTP configuration not found"),
     [EvGetUser authHeader; EvReadBody;
      EvSelectConfig smtp_config_id (id user)])).
  { follow w; open_accepted; same_answer; try congruence;
      try (match goal with H : _ \/ _ |- _ => destruct H; congruence end). }
  unfold response, trace. rewrite E. repeat split.
Qed.


(** The handler has no answer with status 200 and [success: false]. *)
Lemma status_200_is_success (w : World) :
  http_status (response w) = 200 ->
  payload (response w) = Some (ok_message "Email sent successfully").
Proof.
  intros Hst. follow w; cbn in Hst; try discriminate; reflexivity.
Qed.

(** The handler answers 400 only for a missing required field: it makes
    no check of its own on the syntax of the addresses. *)
Lemma status_400_is_missing_field (w : World) :
  http_status (response w) = 400 ->
  exists authHeader user req,
    authenticated w authHeader user
    /\ req_json w = JsonValue req
    /\ missing_required_fields req = true.
Proof.
  intros Hst. follow w; cbn in Hst; try discriminate.
  match goal with
  | H : authenticated _ _ _ |- _ => destruct H as [? ?]
  end.
  do 3 eexists. repeat split; eauto.
  now apply required_fields_None.
Qed.

(** When [client.send] rejects, [client.close] is never called. *)
Lemma send_failure_skips_close (w : World) (e : Exn) :
  client_send w = Some e -> count is_close (trace w) = 0.
Proof.
  intros Hs. follow w; open_accepted; same_answer; reflexivity.
Qed.

(** An empty [cc] or [bcc] is never handed to [client.send]. *)
Lemma empty_cc_is_not_addressed (w : World) (m : Mail.t) :
  In (EvSend m) (trace w) -> Mail.cc m <> Some [] /\ Mail.bcc m <> Some [].
Proof.
  assert (A : forall l, addressed l <> Some []).
  { intros [[|x l]|]; cbn; congruence. }
  intros Hin. follow w; in_trace; cbn; split; apply A.
Qed.


(** *** The compose form *)

Lemma validateEmails_rejects (email_ok : string -> bool)
    (emails : list string) (a : string) :
  In a emails -> email_ok a = false ->
  exists description, validateEmails email_ok emails = Some description.
Proof.
  induction emails as [|email rest IH]; intros Hin Hbad; [destruct Hin|].
  cbn. destruct (email_ok email) eqn:Hok; [|eauto].
  destruct Hin as [-> | Hin]; [congruence|]. now apply IH.
Qed.

(** C1, as the code has it: the address check is made by the compose form.
    When an address typed into To, Cc or Bcc does not pass the check,
    [handleSend] raises a toast and returns without invoking the handler,
    so the handler makes no call at all, whatever the other addresses. *)
Theorem invalid_address_stops_the_form (email_ok : string -> bool)
    (w : World) (f : Form.t) (a : string) :
  In a (parseEmails (Form.to f) ++ parseEmails (Form.cc f)
          ++ parseEmails (Form.bcc f)) ->
  email_ok a = false ->
  (exists title description,
      handleSend email_ok f = Rejected title description)
  /\ submit email_ok w f = [].
Proof.
  intros Hin Hbad.
  assert (R : exists title description,
             handleSend email_ok f = Rejected title description).
  { unfold handleSend.
    destruct (String.eqb (Form.selectedConfig f) ""); [eauto|].
    destruct (length (parseEmails (Form.to f)) =? 0)%nat; [eauto|].
    destruct (validateEmails_rejects email_ok _ a Hin Hbad) as [d ->].
    eauto. }
  split; [exact R|].
  destruct R as (title & description & R). unfold submit. now rewrite R.
Qed.

(** A request with a missing required field reaches no SMTP call. *)
Lemma missing_fields_no_transport (w : World) (req : Req.t) :
  req_json w = JsonValue req ->
  required_fields req = None ->
  count is_transport (trace w) = 0.
Proof.
  intros Hjson Hreq.
  follow w; open_accepted; same_answer; try congruence; reflexivity.
Qed.

(** Through the form, a subject or body of white space only is never
    sent: the form rejects such a subject, and trims such a body to the
    empty string, which the handler rejects. *)
Lemma blank_subject_or_body_is_never_sent (email_ok : string -> bool)
    (w : World) (f : Form.t) :
  Js.trim (Form.subject f) = "" \/ Js.trim (Form.body f) = "" ->
  count is_transport (submit email_ok w f) = 0.
Proof.
  intros Hblank. unfold submit, handleSend.
  destruct (String.eqb (Form.selectedConfig f) ""); [reflexivity|].
  destruct (length (parseEmails (Form.to f)) =? 0)%nat; [reflexivity|].
  destruct (validateEmails email_ok _); [reflexivity|].
  destruct (String.eqb_spec (Js.trim (Form.subject f)) "") as [|Hs];
    [reflexivity|].
  destruct Hblank as [Hb|Hb]; [contradiction|].
  eapply missing_fields_no_transport; [reflexivity|].
  apply required_fields_None. unfold missing_required_fields. cbn.
  rewrite Hb. cbn. now rewrite !orb_true_r.
Qed.

(** ** Runs on the sample worlds *)

(** C1 fails on the handler: a request with the recipient "not-an-email"
    is answered 200 after an SMTP client was built and [client.send] was
    called. *)
Lemma handler_sends_to_invalid_address :
  In "not-an-email" (recipients bad_address)
  /\ req_json world_bad_address = JsonValue bad_address
  /\ http_status (response world_bad_address) = 200
  /\ count is_open (trace world_bad_address) = 1
  /\ count is_send (trace world_bad_address) = 1.
Proof.
  repeat split; vm_compute; auto.
Qed.

Lemma invalid_address_stops_the_form_witness :
  (In "not-an-email"
      (parseEmails (Form.to typed_bad_address)
         ++ parseEmails (Form.cc typed_bad_address)
         ++ parseEmails (Form.bcc typed_bad_address))
   /\ has_at "not-an-email" = false)
  /\ (exists title description,
         handleSend has_at typed_bad_address = Rejected title description)
  /\ submit has_at world_bad_address typed_bad_address = [].
Proof.
  assert (H : In "not-an-email"
      (parseEmails (Form.to typed_bad_address)
         ++ parseEmails (Form.cc typed_bad_address)
         ++ parseEmails (Form.bcc typed_bad_address))
   /\ has_at "not-an-email" = false).
  { split; [vm_compute; auto | reflexivity]. }
  split; [exact H|].
  apply (invalid_address_stops_the_form has_at world_bad_address
           typed_bad_address "not-an-email"); apply H.
Defined.



(** C3 fails on the handler: when [client.send] rejects, the SMTP client
    that was built is not closed before the handler returns. *)
Theorem refused_send_leaves_client_open :
  client_send world_refused = Some refused
  /\ count is_open (trace world_refused) = 1
  /\ count is_send (trace world_refused) = 1
  /\ count is_close (trace world_refused) = 0.
Proof.
  repeat split.
Qed.

(** C4 fails on the handler: with [cc: []] and [bcc: []] the mail handed to
    [client.send] has no [cc] and no [bcc], but the row inserted into
    [sent_emails] has empty arrays, not null, in [cc_emails] and
    [bcc_emails]. *)
Theorem empty_cc_is_stored_as_empty_array :
  Req.cc empty_cc = Some [] /\ Req.bcc empty_cc = Some []
  /\ exists calls m row,
       trace world_empty_cc = calls ++ [EvSend m; EvClose; EvInsert row]
       /\ Mail.cc m = None /\ Mail.bcc m = None
       /\ SentEmail.cc_emails row = Some []
       /\ SentEmail.bcc_emails row = Some [].
Proof.
  split; [reflexivity|]. split; [reflexivity|].
  eexists [_; _; _; _], _, _. vm_compute. repeat split.
Qed.

Lemma foreign_configuration_is_not_found_witness :
  (authenticated world_foreign "Bearer alice" alice
   /\ req_json world_foreign = JsonValue foreign
   /\ required_fields foreign = Some ("cfg-2", ["a@x.com"], "Hi", "Hello")
   /\ In bob_config (smtp_configs world_foreign)
   /\ SmtpConfig.id bob_config = "cfg-2")
  /\ dispatch world_foreign =
       (json_response 404 (failure "SMTP configuration not found"),
        [EvGetUser "Bearer alice"; EvReadBody;
         EvSelectConfig "cfg-2" (id alice)])
  /\ http_status (response world_foreign) = 404
  /\ count is_insert (trace world_foreign) = 0.
Proof.
  split.
  - repeat split. right. left. reflexivity.
  - apply (foreign_configuration_is_not_found world_foreign "Bearer alice"
             alice foreign "cfg-2" ["a@x.com"] "Hi" "Hello").
    + split; reflexivity.
    + reflexivity.
    + reflexivity.
    + intros c [<- | [<- | []]]; cbn; intros ? ?; discriminate.
Defined.

Lemma delivered_mail_reports_success_witness :
  ((exists m, In (EvSend m) (trace world_history_down))
   /\ client_send world_history_down = None
   /\ client_close world_history_down = None
   /\ (forall row, In (EvInsert row) (trace world_history_down) ->
                   insert_fails world_history_down row = true))
  /\ http_status (response world_history_down) = 200
  /\ (exists p,
        payload (response world_history_down) = Some p
        /\ success p = true
        /\ message p = Some "Email sent successfully"
        /\ error p = None)
  /\ response world_history_down =
       json_response 200 (ok_message "Email sent successfully")
  /\ exists row,
       In (EvInsert row) (trace world_history_down)
       /\ SentEmail.status row = sent
       /\ insert_fails world_history_down row = true.
Proof.
  assert (H : exists m, In (EvSend m) (trace world_history_down)).
  { eexists. vm_compute. do 4 right. left. reflexivity. }
  assert (H' : forall row, In (EvInsert row) (trace world_history_down) ->
                           insert_fails world_history_down row = true).
  { intros row _. reflexivity. }
  split.
  - repeat split; assumption.
  - apply (delivered_mail_reports_success world_history_down H);
      [reflexivity|reflexivity|exact H'].
Defined.



Lemma auth_and_validation_errors_stop_before_network_witness :
  ((token_missing world_anonymous \/ token_unknown world_anonymous)
   /\ http_status (response world_anonymous) = 401
   /\ (exists msg, payload (response world_anonymous) = Some (failure msg))
   /\ forall ev, In ev (trace world_anonymous) ->
                 exists authHeader, ev = EvGetUser authHeader)
  /\ ((http_status (response world_foreign) = 401
       \/ http_status (response world_foreign) = 400
       \/ http_status (response world_foreign) = 404)
      /\ forall ev, In ev (trace world_foreign) ->
                    is_transport ev = false /\ is_insert ev = false).
Proof.
  split.
  - assert (H : token_missing world_anonymous \/ token_unknown world_anonymous)
      by (left; reflexivity).
    split; [exact H|].
    apply (proj1 (auth_and_validation_errors_stop_before_network
                    world_anonymous) H).
  - assert (H : http_status (response world_foreign) = 401
       \/ http_status (response world_foreign) = 400
       \/ http_status (response world_foreign) = 404)
      by (right; right; reflexivity).
    split; [exact H|].
    apply (proj2 (auth_and_validation_errors_stop_before_network
                    world_foreign) H).
Defined.

Lemma inserted_row_belongs_to_caller_witness :
  In (EvInsert outage_row) (trace world_auth_outage)
  /\ exists authHeader k user userError,
       authorization world_auth_outage = Some authHeader
       /\ authHeader <> ""
       /\ auth_getUser world_auth_outage authHeader k
          = GetUserReturns (Some user) userError
       /\ SentEmail.user_id outage_row = id user
       /\ ((SentEmail.status outage_row = sent
            /\ k = 0 /\ userError = false)
           \/ (SentEmail.status outage_row = failed /\ k = 1)).
Proof.
  assert (H : In (EvInsert outage_row) (trace world_auth_outage)).
  { vm_compute. do 3 right. left. reflexivity. }
  split; [exact H|].
  apply (inserted_row_belongs_to_caller world_auth_outage _ H).
Defined.

(** ** Further properties of the handler *)

(** X1: every response of [serve], the preflight answer included, carries
    the two CORS headers. *)
Theorem every_response_carries_cors (method : string) (w : World) :
  incl corsHeaders (headers (fst (serve method w))).
Proof.
  unfold serve. destruct (String.eqb method "OPTIONS").
  - cbn [fst headers]. apply incl_refl.
  - intros h Hh. fold (response w).
    follow w; unfold json_response, headers; apply in_or_app; now left.
Qed.

(** X2: the handler answers with one of five statuses and always with a
    JSON body; [success] is true exactly for status 200, a [message] is
    present exactly when [success] is true and an [error] exactly when it
    is false. *)
Theorem response_shape (w : World) :
  exists p,
    payload (response w) = Some p
    /\ In (http_status (response w)) [200; 400; 401; 404; 500]
    /\ success p = (http_status (response w) =? 200)%nat
    /\ is_some (message p) = success p
    /\ is_some (error p) = negb (success p).
Proof.
  follow w; eexists; (split; [reflexivity|]); cbn; intuition auto.
Qed.

(** X3: the handler answers 200 only after [client.send] and
    [client.close] both resolved; the calls it made are then, in this
    order: [getUser], the body read, the select, the client construction,
    the send, the close and the insert of a [sent] row. *)
Theorem success_means_delivered (w : World) :
  http_status (response w) = 200 ->
  client_send w = None
  /\ client_close w = None
  /\ exists authHeader user smtp_config_id smtpConfig m row,
       trace w = [ EvGetUser authHeader; EvReadBody;
                   EvSelectConfig smtp_config_id (id user);
                   EvNewClient (connection_of smtpConfig);
                   EvSend m; EvClose; EvInsert row ]
       /\ SentEmail.status row = sent.
Proof.
  intros Hst. follow w; cbn in Hst; try discriminate.
  repeat split; auto. do 6 eexists. split; reflexivity.
Qed.

Lemma success_means_delivered_witness :
  http_status (response world_hello) = 200
  /\ client_send world_hello = None
  /\ client_close world_hello = None
  /\ exists authHeader user smtp_config_id smtpConfig m row,
       trace world_hello =
         [ EvGetUser authHeader; EvReadBody;
           EvSelectConfig smtp_config_id (id user);
           EvNewClient (connection_of smtpConfig);
           EvSend m; EvClose; EvInsert row ]
       /\ SentEmail.status row = sent.
Proof.
  split; [reflexivity|].
  apply (success_means_delivered world_hello).
  reflexivity.
Defined.

Lemma single_config_Some (w : World) (smtp_config_id uid : string)
    (c : SmtpConfig.t) :
  single_config w smtp_config_id uid = Some c ->
  In c (smtp_configs w)
  /\ SmtpConfig.id c = smtp_config_id
  /\ SmtpConfig.user_id c = uid.
Proof.
  unfold single_config. destruct (select_fails w); [discriminate|].
  destruct (filter (matches smtp_config_id uid) (smtp_configs w))
    as [|c' [|c'' rest]] eqn:Hf; try discriminate.
  intros [= ->].
  assert (Hin : In c (filter (matches smtp_config_id uid) (smtp_configs w)))
    by (rewrite Hf; now left).
  apply filter_In in Hin as [Hin Hm].
  unfold matches in Hm. apply andb_true_iff in Hm as [H1 H2].
  apply String.eqb_eq in H1, H2. auto.
Qed.



Lemma owned_matches (smtp_config_id uid : string) (rows : list SmtpConfig.t) :
  filter (matches smtp_config_id uid) (owned_by uid rows)
  = filter (matches smtp_config_id uid) rows.
Proof.
  unfold owned_by. induction rows as [|c rows IH]; [reflexivity|].
  cbn. unfold matches at 2 3.
  destruct (String.eqb (SmtpConfig.user_id c) uid) eqn:Hu; cbn.
  - unfold matches at 1. rewrite Hu. now rewrite IH.
  - rewrite andb_false_r. exact IH.
Qed.

(** X5: the rows of [smtp_configs] that belong to other users have no
    influence on a call: for a caller the identity provider resolves to
    [user], the handler answers and calls exactly as it would if the table
    held that user's own rows only. *)
Theorem other_users_rows_are_invisible (w : World) (authHeader : string)
    (user : User) :
  authenticated w authHeader user ->
  dispatch (with_configs w (owned_by (id user) (smtp_configs w)))
  = dispatch w.
Proof.
  intros [Ha Hg].
  assert (S : forall cid,
    single_config (with_configs w (owned_by (id user) (smtp_configs w)))
      cid (id user) = single_config w cid (id user)).
  { intros cid. unfold single_config. cbn. now rewrite owned_matches. }
  unfold dispatch.
  assert (T : try_block (with_configs w (owned_by (id user) (smtp_configs w))) []
              = try_block w []).
  { unfold try_block, getUser, select_config, insert_row, bind, emit, ret.
    cbn. rewrite Ha. cbn. rewrite Hg. cbn.
    destruct (req_json w) as [req|e]; cbn; [|reflexivity].
    destruct (required_fields req) as [[[[cid to] subject] body]|];
      [|reflexivity].
    cbn. rewrite S. reflexivity. }
  rewrite T. destruct (try_block w []) as [[r|e] tr]; reflexivity.
Qed.

Lemma other_users_rows_are_invisible_witness :
  authenticated world_hello "Bearer alice" alice
  /\ dispatch (with_configs world_hello
                 (owned_by (id alice) (smtp_configs world_hello)))
     = dispatch world_hello.
Proof.
  assert (H : authenticated world_hello "Bearer alice" alice)
    by (split; reflexivity).
  split; [exact H|].
  apply (other_users_rows_are_invisible _ _ _ H).
Defined.

(** X6: a mail handed to [client.send] carries the body of the request
    either as [html] or as [content], never as both and never as neither:
    as [html] exactly when the request has [is_html: true]. *)
Theorem body_is_html_or_text (w : World) (m : Mail.t) :
  In (EvSend m) (trace w) ->
  exists req body,
    req_json w = JsonValue req
    /\ Req.body req = Some body
    /\ (Mail.html m, Mail.content m)
       = if Js.or_false (Req.is_html req) then (Some body, None)
         else (None, Some body).
Proof.
  intros Hin.
  follow w; in_trace; open_accepted;
    match goal with
    | Hr : required_fields ?req = Some (_, _, _, ?body) |- _ =>
        apply required_fields_Some in Hr as (? & ? & ? & ? & _);
        exists req, body; repeat split; auto;
        cbn; destruct (Js.or_false (Req.is_html req)); reflexivity
    end.
Qed.

Lemma body_is_html_or_text_witness :
  In (EvSend hello_mail) (trace world_hello)
  /\ exists req body,
       req_json world_hello = JsonValue req
       /\ Req.body req = Some body
       /\ (Mail.html hello_mail, Mail.content hello_mail)
          = if Js.or_false (Req.is_html req) then (Some body, None)
            else (None, Some body).
Proof.
  assert (H : In (EvSend hello_mail) (trace world_hello)).
  { vm_compute. do 4 right. left. reflexivity. }
  split; [exact H|].
  apply (body_is_html_or_text _ _ H).
Defined.

(** X7: what is recorded as sent is what was handed to [client.send]: a
    [sent] row has the recipients and the subject of the mail of the same
    call; its body is the [html] of that mail when the row has [is_html]
    and its [content] otherwise; the [cc] and [bcc] of the mail are the
    row's [cc_emails] and [bcc_emails] whenever these are non-empty (an
    empty array is stored and not sent).  All of them are the values of
    the request, and the row names the configuration the request named. *)
Theorem sent_row_records_the_mail (w : World) (m : Mail.t)
    (row : SentEmail.t) :
  In (EvSend m) (trace w) ->
  In (EvInsert row) (trace w) ->
  SentEmail.status row = sent ->
  exists req,
    req_json w = JsonValue req
    /\ SentEmail.to_emails row = Some (Mail.to m)
    /\ SentEmail.to_emails row = Req.to req
    /\ SentEmail.subject row = Some (Mail.subject m)
    /\ SentEmail.subject row = Req.subject req
    /\ SentEmail.body row = Req.body req
    /\ (exists body,
          SentEmail.body row = Some body
          /\ (Mail.html m, Mail.content m)
             = if SentEmail.is_html row then (Some body, None)
               else (None, Some body))
    /\ SentEmail.cc_emails row = Req.cc req
    /\ SentEmail.bcc_emails row = Req.bcc req
    /\ (forall l, Mail.cc m = Some l
                  <-> SentEmail.cc_emails row = Some l /\ l <> [])
    /\ (forall l, Mail.bcc m = Some l
                  <-> SentEmail.bcc_emails row = Some l /\ l <> [])
    /\ SentEmail.smtp_config_id row = Req.smtp_config_id req
    /\ SentEmail.is_html row = is_some (Mail.html m)
    /\ SentEmail.error_message row = None.
Proof.
  assert (A : forall (o : option (list string)) l,
             addressed o = Some l <-> Js.or_null o = Some l /\ l <> []).
  { intros [[|x k]|] l; cbn; split; try discriminate.
    - intros [[= <-] H]. now contradiction H.
    - intros [= <-]. split; [reflexivity|discriminate].
    - now intros [H _].
    - now intros [[=] _]. }
  assert (N : forall o : option (list string), Js.or_null o = o)
    by (intros [l|]; reflexivity).
  intros Hm Hrow Hst.
  follow w; in_trace; try discriminate Hst; open_accepted;
    match goal with
    | Hr : required_fields ?req = Some (_, _, _, ?body) |- _ =>
        apply required_fields_Some in Hr as (? & ? & ? & ? & _);
        exists req; cbn;
        repeat match goal with
               | |- _ /\ _ => split
               end; auto; try apply N; try apply A;
        try (exists body; split; [reflexivity|]);
        destruct (Js.or_false (Req.is_html req)); reflexivity
    end.
Qed.

Lemma sent_row_records_the_mail_witness :
  (In (EvSend cc_mail) (trace world_with_cc)
   /\ In (EvInsert cc_row) (trace world_with_cc)
   /\ SentEmail.status cc_row = sent)
  /\ exists req,
       req_json world_with_cc = JsonValue req
       /\ SentEmail.to_emails cc_row = Some (Mail.to cc_mail)
       /\ SentEmail.to_emails cc_row = Req.to req
       /\ SentEmail.subject cc_row = Some (Mail.subject cc_mail)
       /\ SentEmail.subject cc_row = Req.subject req
       /\ SentEmail.body cc_row = Req.body req
       /\ (exists body,
             SentEmail.body cc_row = Some body
             /\ (Mail.html cc_mail, Mail.content cc_mail)
                = if SentEmail.is_html cc_row then (Some body, None)
                  else (None, Some body))
       /\ SentEmail.cc_emails cc_row = Req.cc req
       /\ SentEmail.bcc_emails cc_row = Req.bcc req
       /\ (forall l, Mail.cc cc_mail = Some l
                     <-> SentEmail.cc_emails cc_row = Some l /\ l <> [])
       /\ (forall l, Mail.bcc cc_mail = Some l
                     <-> SentEmail.bcc_emails cc_row = Some l /\ l <> [])
       /\ SentEmail.smtp_config_id cc_row = Req.smtp_config_id req
       /\ SentEmail.is_html cc_row = is_some (Mail.html cc_mail)
       /\ SentEmail.error_message cc_row = None.
Proof.
  assert (H1 : In (EvSend cc_mail) (trace world_with_cc)).
  { vm_compute. do 4 right. left. reflexivity. }
  assert (H2 : In (EvInsert cc_row) (trace world_with_cc)).
  { vm_compute. do 6 right. left. reflexivity. }
  split; [repeat split; assumption|].
  apply (sent_row_records_the_mail _ _ _ H1 H2). reflexivity.
Defined.

(** X8: [cc] and [bcc] reach [client.send] exactly when the request has
    them as non-empty arrays, and then unchanged. *)
Theorem cc_is_forwarded_when_nonempty (w : World) (m : Mail.t) :
  In (EvSend m) (trace w) ->
  exists req,
    req_json w = JsonValue req
    /\ (forall l, Mail.cc m = Some l <-> Req.cc req = Some l /\ l <> [])
    /\ (forall l, Mail.bcc m = Some l <-> Req.bcc req = Some l /\ l <> []).
Proof.
  assert (A : forall (o : option (list string)) l,
             addressed o = Some l <-> o = Some l /\ l <> []).
  { intros [[|x k]|] l; cbn; split; try discriminate.
    - intros [[= <-] H]. now contradiction H.
    - intros [= <-]. split; [reflexivity|discriminate].
    - now intros [H _].
    - now intros [[=] _]. }
  intros Hin.
  follow w; in_trace; open_accepted;
    match goal with
    | Hr : req_json w = JsonValue ?req |- _ =>
        exists req; split; [assumption|]; cbn;
        split; intros l; apply A
    end.
Qed.

Lemma cc_is_forwarded_when_nonempty_witness :
  In (EvSend hello_mail) (trace world_hello)
  /\ exists req,
       req_json world_hello = JsonValue req
       /\ (forall l, Mail.cc hello_mail = Some l
                     <-> Req.cc req = Some l /\ l <> [])
       /\ (forall l, Mail.bcc hello_mail = Some l
                     <-> Req.bcc req = Some l /\ l <> []).
Proof.
  assert (H : In (EvSend hello_mail) (trace world_hello)).
  { vm_compute. do 4 right. left. reflexivity. }
  split; [exact H|].
  apply (cc_is_forwarded_when_nonempty _ _ H).
Defined.







(** ** Facts about [trim] and [split] *)

Lemma trimStart_head (s : string) (c : ascii) (t : string) :
  Js.trimStart s = String c t -> Js.is_space c = false.
Proof.
  induction s as [|d s IH]; cbn; [discriminate|].
  destruct (Js.is_space d) eqn:Hd; [exact IH|].
  intros [= <- <-]. exact Hd.
Qed.

Lemma trimStart_fixed (c : ascii) (t : string) :
  Js.is_space c = false -> Js.trimStart (String c t) = String c t.
Proof. intros H. cbn. now rewrite H. Qed.

Lemma trimEnd_idem (s : string) : Js.trimEnd (Js.trimEnd s) = Js.trimEnd s.
Proof.
  induction s as [|c s IH]; [reflexivity|].
  cbn. destruct (Js.trimEnd s) as [|d u] eqn:Hs.
  - destruct (Js.is_space c) eqn:Hc; [reflexivity|]. cbn. now rewrite Hc.
  - try rewrite Hs in IH.
    change (Js.trimEnd (String c (String d u)))
      with (match Js.trimEnd (String d u) with
            | EmptyString =>
                if Js.is_space c then EmptyString else String c EmptyString
            | t => String c t
            end).
    now rewrite IH.
Qed.

Lemma trimEnd_head (c : ascii) (t : string) :
  Js.is_space c = false ->
  exists u, Js.trimEnd (String c t) = String c u.
Proof.
  intros Hc. cbn. destruct (Js.trimEnd t); [rewrite Hc|]; eauto.
Qed.

Lemma trim_idem (s : string) : Js.trim (Js.trim s) = Js.trim s.
Proof.
  unfold Js.trim.
  destruct (Js.trimStart s) as [|c t] eqn:Hs; [reflexivity|].
  apply trimStart_head in Hs.
  destruct (trimEnd_head c t Hs) as [u Hu].
  rewrite Hu, (trimStart_fixed c u Hs), <- Hu. apply trimEnd_idem.
Qed.

Lemma blank_trimStart (s : string) : blank s = true <-> Js.trimStart s = "".
Proof.
  unfold blank. induction s as [|c s IH]; cbn; [tauto|].
  destruct (Js.is_space c); cbn; [exact IH|]. split; discriminate.
Qed.

Lemma trimEnd_empty (s : string) : Js.trimEnd s = "" -> blank s = true.
Proof.
  unfold blank. induction s as [|c s IH]; cbn; [reflexivity|].
  destruct (Js.trimEnd s); [|discriminate].
  destruct (Js.is_space c); [|discriminate]. intros _. now apply IH.
Qed.

(** [s.trim()] is empty exactly when [s] is white space only. *)
Lemma trim_empty (s : string) : Js.trim s = "" <-> blank s = true.
Proof.
  unfold Js.trim. split.
  - intros H. apply blank_trimStart.
    destruct (Js.trimStart s) as [|c t] eqn:Hs; [reflexivity|].
    apply trimStart_head in Hs. apply trimEnd_empty in H.
    unfold blank in H. cbn in H. rewrite Hs in H. discriminate.
  - intros H. apply blank_trimStart in H. now rewrite H.
Qed.

Lemma has_comma_trimStart (s : string) :
  has_comma s = false -> has_comma (Js.trimStart s) = false.
Proof.
  unfold has_comma. induction s as [|c s IH]; cbn; [reflexivity|].
  intros H. apply orb_false_iff in H as [Hc Hs].
  destruct (Js.is_space c); [now apply IH|]. cbn. now rewrite Hc, Hs.
Qed.

Lemma has_comma_trimEnd (s : string) :
  has_comma s = false -> has_comma (Js.trimEnd s) = false.
Proof.
  unfold has_comma. induction s as [|c s IH]; cbn; [reflexivity|].
  intros H. apply orb_false_iff in H as [Hc Hs]. specialize (IH Hs).
  destruct (Js.trimEnd s) as [|d u].
  - destruct (Js.is_space c); [reflexivity|]. cbn. now rewrite Hc.
  - cbn. rewrite Hc. exact IH.
Qed.

Lemma has_comma_trim (s : string) :
  has_comma s = false -> has_comma (Js.trim s) = false.
Proof.
  intros H. unfold Js.trim. now apply has_comma_trimEnd, has_comma_trimStart.
Qed.

Lemma has_comma_cons (c : ascii) (s : string) :
  has_comma (String c s) = (Ascii.eqb c "," || has_comma s)%bool.
Proof. rewrite (Ascii.eqb_sym c ","). reflexivity. Qed.

(** No piece of [s.split(',')] has a comma. *)
Lemma split_no_comma (s : string) (e : string) :
  In e (Js.split "," s) -> has_comma e = false.
Proof.
  revert e. induction s as [|c s IH]; cbn; intros e.
  - intros [<-|[]]. reflexivity.
  - destruct (Ascii.eqb c ",") eqn:Hc.
    + intros [<-|Hin]; [reflexivity|now apply IH].
    + destruct (Js.split "," s) as [|x xs].
      * intros [<-|[]]. now rewrite has_comma_cons, Hc.
      * intros [<-|Hin].
        -- rewrite has_comma_cons, Hc. apply (IH x). now left.
        -- apply IH. now right.
Qed.

Lemma split_nonempty (s : string) : Js.split "," s <> [].
Proof.
  destruct s as [|c s]; cbn; [discriminate|].
  destruct (Ascii.eqb c ","); [discriminate|].
  destruct (Js.split "," s); discriminate.
Qed.

Lemma parsed_address_clean (input e : string) :
  In e (parseEmails input) -> clean_address e.
Proof.
  unfold parseEmails.
  destruct (String.eqb (Js.trim input) ""); [intros []|].
  intros Hin. apply filter_In in Hin as [Hin Hne].
  apply in_map_iff in Hin as (piece & <- & Hp).
  repeat split.
  - intros H. rewrite H in Hne. discriminate.
  - apply trim_idem.
  - apply has_comma_trim. now apply split_no_comma with (s := input).
Qed.

(** X12: every address [parseEmails] returns is non-empty, has no comma
    and has no white space around it. *)
Theorem parseEmails_clean (input e : string) :
  In e (parseEmails input) -> e <> "" /\ Js.trim e = e /\ has_comma e = false.
Proof. apply parsed_address_clean. Qed.

Lemma parseEmails_clean_witness :
  In "b@y.org" (parseEmails " a@x.com , ,b@y.org,")
  /\ "b@y.org" <> "" /\ Js.trim "b@y.org" = "b@y.org"
  /\ has_comma "b@y.org" = false.
Proof.
  assert (H : In "b@y.org" (parseEmails " a@x.com , ,b@y.org,")).
  { vm_compute. right. left. reflexivity. }
  split; [exact H|].
  apply (parseEmails_clean _ _ H).
Defined.

Lemma blank_cons (c : ascii) (s : string) :
  blank (String c s) = (Js.is_space c && blank s)%bool.
Proof. reflexivity. Qed.

Lemma pieces_blank (s : string) :
  (forall e, In e (Js.split "," s) -> blank e = true)
  <-> only_separators s = true.
Proof.
  unfold only_separators. induction s as [|c s IH]; cbn [Js.split].
  - split; [reflexivity|]. intros _ e [<-|[]]. reflexivity.
  - change (list_ascii_of_string (String c s))
      with (c :: list_ascii_of_string s).
    cbn [forallb]. destruct (Ascii.eqb c ",") eqn:Hc.
    + rewrite orb_true_r. cbn [andb]. rewrite <- IH. split.
      * intros H e He. apply H. now right.
      * intros H e [<-|He]; [reflexivity|now apply H].
    + rewrite orb_false_r, andb_true_iff, <- IH.
      pose proof (split_nonempty s) as Hne.
      destruct (Js.split "," s) as [|x xs]; [contradiction|]. split.
      * intros H. assert (Hx : blank (String c x) = true)
          by (apply H; now left).
        rewrite blank_cons in Hx. apply andb_true_iff in Hx as [Hsp Hx].
        split; [exact Hsp|]. intros e [<-|He]; [exact Hx|].
        apply H. now right.
      * intros [Hsp H] e [<-|He].
        -- rewrite blank_cons, Hsp. apply H. now left.
        -- apply H. now right.
Qed.

Lemma only_separators_blank (s : string) :
  blank s = true -> only_separators s = true.
Proof.
  unfold blank, only_separators.
  induction (list_ascii_of_string s) as [|c l IH]; cbn; [reflexivity|].
  intros H. apply andb_true_iff in H as [-> H]. cbn. now apply IH.
Qed.

(** X13: [parseEmails] returns no address exactly when the input holds
    nothing but white space and commas; the empty input is one such. *)
Theorem parseEmails_empty_iff (input : string) :
  parseEmails input = [] <-> only_separators input = true.
Proof.
  unfold parseEmails.
  destruct (String.eqb_spec (Js.trim input) "") as [Hb|Hb].
  - split; [|reflexivity]. intros _.
    now apply only_separators_blank, trim_empty.
  - rewrite <- pieces_blank. split.
    + intros Hnil e He. apply trim_empty.
      destruct (String.eqb_spec (Js.trim e) "") as [|Hne]; [assumption|].
      exfalso.
      assert (Hin : In (Js.trim e)
                (filter (fun e0 => negb (String.eqb e0 ""))
                   (map Js.trim (Js.split "," input)))).
      { apply filter_In. split; [now apply in_map|].
        now apply negb_true_iff, String.eqb_neq. }
      rewrite Hnil in Hin. destruct Hin.
    + intros H.
      induction (Js.split "," input) as [|x xs IH]; [reflexivity|].
      cbn. assert (Hx : Js.trim x = "")
        by (apply trim_empty, H; now left).
      rewrite Hx. cbn. apply IH. intros e He. apply H. now right.
Qed.

Lemma parseEmails_empty_iff_witness :
  only_separators " , ,, " = true /\ parseEmails " , ,, " = [].
Proof.
  assert (H : only_separators " , ,, " = true) by reflexivity.
  split; [exact H|].
  apply (proj2 (parseEmails_empty_iff " , ,, ") H).
Defined.

Lemma split_single (a : string) :
  has_comma a = false -> Js.split "," a = [a].
Proof.
  induction a as [|c a IH]; [reflexivity|].
  rewrite has_comma_cons. intros H. apply orb_false_iff in H as [Hc Ha].
  cbn. rewrite Hc, (IH Ha). reflexivity.
Qed.

Lemma split_app (a s : string) :
  has_comma a = false ->
  Js.split "," (a ++ String "," s) = a :: Js.split "," s.
Proof.
  induction a as [|c a IH]; [reflexivity|].
  rewrite has_comma_cons. intros H. apply orb_false_iff in H as [Hc Ha].
  cbn. rewrite Hc, (IH Ha). reflexivity.
Qed.

Lemma split_join (x : string) (rest : list string) :
  Forall clean_address (x :: rest) ->
  Js.split "," (join ", " (x :: rest)) = x :: map (String " ") rest.
Proof.
  revert x. induction rest as [|y rest IH]; intros x Hall.
  - cbn. apply split_single. inversion Hall as [|? ? Hx _]; subst.
    apply Hx.
  - inversion Hall as [|? ? Hx Hrest]; subst.
    change (join ", " (x :: y :: rest))
      with (x ++ String "," (String " " (join ", " (y :: rest))))%string.
    rewrite split_app by apply Hx.
    change (Js.split "," (String " " (join ", " (y :: rest))))
      with (match Js.split "," (join ", " (y :: rest)) with
            | [] => [String " " EmptyString]
            | h :: t => String " " h :: t
            end).
    rewrite (IH y Hrest). reflexivity.
Qed.

Lemma blank_app (a b : string) : blank (a ++ b) = true -> blank a = true.
Proof.
  unfold blank. induction a as [|c a IH]; cbn; [reflexivity|].
  intros H. apply andb_true_iff in H as [-> H]. now apply IH.
Qed.

Lemma join_not_blank (x : string) (rest : list string) :
  clean_address x -> Js.trim (join ", " (x :: rest)) <> "".
Proof.
  intros (Hne & Htrim & _) H. apply trim_empty in H.
  assert (Hx : blank x = true).
  { destruct rest as [|y rest]; [exact H|].
    change (join ", " (x :: y :: rest))
      with (x ++ (", " ++ join ", " (y :: rest)))%string in H.
    now apply blank_app in H. }
  apply trim_empty in Hx. congruence.
Qed.

(** Addresses joined with ", ", as the Sent view shows them, parse back to
    the same addresses. *)
Lemma parseEmails_join (l : list string) :
  Forall clean_address l -> parseEmails (join ", " l) = l.
Proof.
  intros Hall. destruct l as [|x rest]; [reflexivity|].
  unfold parseEmails.
  inversion Hall as [|? ? Hx Hrest]; subst.
  destruct (String.eqb_spec (Js.trim (join ", " (x :: rest))) "") as [Hb|_];
    [now apply join_not_blank in Hb|].
  rewrite (split_join x rest Hall). cbn [map filter].
  destruct Hx as (Hne & Htrim & _). rewrite Htrim.
  destruct (String.eqb_spec x ""); [contradiction|]. cbn [negb]. f_equal.
  clear - Hrest. induction Hrest as [|y rest Hy _ IH]; [reflexivity|].
  cbn [map filter].
  change (Js.trim (String " " y)) with (Js.trim y).
  destruct Hy as (Hne & Htrim & _). rewrite Htrim.
  destruct (String.eqb_spec y ""); [contradiction|]. cbn [negb].
  now rewrite IH.
Qed.

(** X14: round trip between the compose form and the Sent view: the
    addresses [parseEmails] reads from an input, joined with ", " as the
    Sent view displays them, are read back by [parseEmails] as the same
    addresses. *)
Theorem parseEmails_round_trip (input : string) :
  parseEmails (join ", " (parseEmails input)) = parseEmails input.
Proof.
  apply parseEmails_join, Forall_forall.
  intros e He. now apply parsed_address_clean in He.
Qed.

(** ** Further properties of the compose form *)

Lemma validateEmails_None (email_ok : string -> bool)
    (emails : list string) :
  validateEmails email_ok emails = None -> forallb email_ok emails = true.
Proof.
  induction emails as [|email rest IH]; [reflexivity|].
  cbn. destruct (email_ok email); [exact IH|discriminate].
Qed.

(** X15: [validateEmails] accepts a list exactly when every address
    passes the check; otherwise its toast quotes the first address, in
    order, that does not pass. *)
Theorem validateEmails_first_invalid (email_ok : string -> bool)
    (emails : list string) :
  match validateEmails email_ok emails with
  | None => forallb email_ok emails = true
  | Some description =>
      exists before email rest,
        emails = before ++ email :: rest
        /\ forallb email_ok before = true
        /\ email_ok email = false
        /\ description
           = (dquote ++ email ++ dquote
                ++ " is not a valid email address.")%string
  end.
Proof.
  induction emails as [|email rest IH]; [reflexivity|].
  cbn. destruct (email_ok email) eqn:Hok.
  - destruct (validateEmails email_ok rest) as [d|]; [|exact IH].
    destruct IH as (before & bad & rest' & -> & Hb & Hbad & ->).
    exists (email :: before), bad, rest'. cbn. rewrite Hok. auto.
  - exists [], email, rest. auto.
Qed.

Lemma list_of_nonempty_or_undefined (l : list string) :
  list_of (nonempty_or_undefined l) = l.
Proof. destruct l; reflexivity. Qed.

Lemma handleSend_Invoked (email_ok : string -> bool) (f : Form.t)
    (body : Req.t) :
  handleSend email_ok f = Invoked body ->
  Form.selectedConfig f <> ""
  /\ parseEmails (Form.to f) <> []
  /\ validateEmails email_ok
       (parseEmails (Form.to f) ++ parseEmails (Form.cc f)
          ++ parseEmails (Form.bcc f)) = None
  /\ Js.trim (Form.subject f) <> ""
  /\ body =
       {| Req.smtp_config_id := Some (Form.selectedConfig f);
          Req.to := Some (parseEmails (Form.to f));
          Req.cc := nonempty_or_undefined (parseEmails (Form.cc f));
          Req.bcc := nonempty_or_undefined (parseEmails (Form.bcc f));
          Req.subject := Some (Js.trim (Form.subject f));
          Req.body := Some (Js.trim (Form.body f));
          Req.is_html := Some false |}.
Proof.
  unfold handleSend.
  destruct (String.eqb_spec (Form.selectedConfig f) ""); [discriminate|].
  destruct (parseEmails (Form.to f)) as [|t ts] eqn:Hto; [discriminate|].
  cbn [length Nat.eqb].
  destruct (validateEmails email_ok _) eqn:Hv; [discriminate|].
  destruct (String.eqb_spec (Js.trim (Form.subject f)) ""); [discriminate|].
  intros [= <-]. repeat split; auto. discriminate.
Qed.

(** X16: every request the form hands to the handler names the selected
    configuration, has at least one recipient, has only addresses that
    passed the check and are free of commas and surrounding white space,
    has a non-empty trimmed subject, never has an empty [cc] or [bcc]
    array, and is sent as plain text. *)
Theorem form_invokes_well_formed_request (email_ok : string -> bool)
    (f : Form.t) (body : Req.t) :
  handleSend email_ok f = Invoked body ->
  Js.truthy (Req.smtp_config_id body) = Some (Form.selectedConfig f)
  /\ (exists to, Req.to body = Some to /\ to <> [])
  /\ forallb email_ok (recipients body) = true
  /\ Forall clean_address (recipients body)
  /\ (exists subject,
        Req.subject body = Some subject
        /\ subject <> "" /\ Js.trim subject = subject)
  /\ Req.cc body <> Some []
  /\ Req.bcc body <> Some []
  /\ Req.is_html body = Some false.
Proof.
  intros H. apply handleSend_Invoked in H as (Hc & Hto & Hv & Hs & ->).
  assert (N : forall l, nonempty_or_undefined l <> Some []).
  { intros [|x l]; cbn; discriminate. }
  unfold recipients. cbn. rewrite !list_of_nonempty_or_undefined.
  repeat split; auto.
  - destruct (String.eqb_spec (Form.selectedConfig f) "");
      [contradiction|reflexivity].
  - eauto.
  - now apply validateEmails_None.
  - apply Forall_forall. intros e He.
    apply in_app_or in He as [He|He];
      [|apply in_app_or in He as [He|He]];
      now apply parsed_address_clean in He.
  - eexists. repeat split; auto. apply trim_idem.
Qed.

Lemma form_invokes_well_formed_request_witness :
  handleSend has_at typed_hello = Invoked typed_hello_request
  /\ Js.truthy (Req.smtp_config_id typed_hello_request)
     = Some (Form.selectedConfig typed_hello)
  /\ (exists to, Req.to typed_hello_request = Some to /\ to <> [])
  /\ forallb has_at (recipients typed_hello_request) = true
  /\ Forall clean_address (recipients typed_hello_request)
  /\ (exists subject,
        Req.subject typed_hello_request = Some subject
        /\ subject <> "" /\ Js.trim subject = subject)
  /\ Req.cc typed_hello_request <> Some []
  /\ Req.bcc typed_hello_request <> Some []
  /\ Req.is_html typed_hello_request = Some false.
Proof.
  assert (H : handleSend has_at typed_hello = Invoked typed_hello_request)
    by reflexivity.
  split; [exact H|].
  apply (form_invokes_well_formed_request has_at typed_hello _ H).
Defined.

Lemma authenticated_400 (w : World) (authHeader : string) (user : User)
    (req : Req.t) :
  authenticated w authHeader user ->
  req_json w = JsonValue req ->
  (http_status (response w) = 400 <-> missing_required_fields req = true).
Proof.
  intros [Ha Hg] Hj. rewrite <- required_fields_None. split.
  - intros Hst. follow w; cbn in Hst; try discriminate. congruence.
  - intros Hreq.
    follow w; open_accepted; same_answer; try congruence;
      try (match goal with H : _ \/ _ |- _ => destruct H; congruence end);
      reflexivity.
Qed.

(** X17: for an authenticated caller, the handler answers 400 to a
    request the form built exactly when the body typed into the form is
    white space only: every other required field was checked by the
    form. *)
Theorem form_request_is_400_iff_blank_body (email_ok : string -> bool)
    (w : World) (f : Form.t) (body : Req.t) (authHeader : string)
    (user : User) :
  handleSend email_ok f = Invoked body ->
  authenticated w authHeader user ->
  (http_status (response (with_body w body)) = 400
   <-> blank (Form.body f) = true).
Proof.
  intros H Hauth.
  rewrite (authenticated_400 (with_body w body) authHeader user body Hauth
             eq_refl).
  apply handleSend_Invoked in H as (Hc & Hto & Hv & Hs & ->).
  rewrite <- trim_empty.
  unfold missing_required_fields. cbn.
  destruct (String.eqb_spec (Form.selectedConfig f) ""); [contradiction|].
  destruct (parseEmails (Form.to f)); [contradiction|].
  destruct (String.eqb_spec (Js.trim (Form.subject f)) "");
    [contradiction|].
  cbn. apply String.eqb_eq.
Qed.

Lemma form_request_is_400_iff_blank_body_witness :
  (handleSend has_at typed_blank_body
     = Invoked {| Req.smtp_config_id := Some "cfg-1";
                  Req.to := Some ["a@x.com"];
                  Req.cc := None;
                  Req.bcc := None;
                  Req.subject := Some "Hi";
                  Req.body := Some "";
                  Req.is_html := Some false |}
   /\ authenticated world_hello "Bearer alice" alice
   /\ blank (Form.body typed_blank_body) = true)
  /\ http_status
       (response
          (with_body world_hello
             {| Req.smtp_config_id := Some "cfg-1";
                Req.to := Some ["a@x.com"];
                Req.cc := None;
                Req.bcc := None;
                Req.subject := Some "Hi";
                Req.body := Some "";
                Req.is_html := Some false |})) = 400.
Proof.
  assert (H1 : handleSend has_at typed_blank_body
     = Invoked {| Req.smtp_config_id := Some "cfg-1";
                  Req.to := Some ["a@x.com"];
                  Req.cc := None;
                  Req.bcc := None;
                  Req.subject := Some "Hi";
                  Req.body := Some "";
                  Req.is_html := Some false |}) by reflexivity.
  assert (H2 : authenticated world_hello "Bearer alice" alice)
    by (split; reflexivity).
  assert (H3 : blank (Form.body typed_blank_body) = true) by reflexivity.
  split; [repeat split; assumption|].
  apply (proj2 (form_request_is_400_iff_blank_body has_at world_hello
                  typed_blank_body _ "Bearer alice" alice H1 H2) H3).
Defined.

Lemma sent_row_cc (w : World) (req : Req.t) (row : SentEmail.t) :
  req_json w = JsonValue req ->
  In (EvInsert row) (trace w) ->
  SentEmail.status row = sent ->
  SentEmail.cc_emails row = Req.cc req
  /\ SentEmail.bcc_emails row = Req.bcc req.
Proof.
  assert (N : forall o : option (list string), Js.or_null o = o)
    by (intros [l|]; reflexivity).
  intros Hj Hin Hst.
  follow w; in_trace; try discriminate Hst; open_accepted; same_answer.
  cbn. now rewrite !N.
Qed.

(** X18: a mail sent through the compose form is never recorded with an
    empty [cc_emails] or [bcc_emails] array: the form leaves an empty list
    out of the request, and the handler stores what the request has. *)
Theorem form_never_stores_empty_cc (email_ok : string -> bool) (w : World)
    (f : Form.t) (row : SentEmail.t) :
  In (EvInsert row) (submit email_ok w f) ->
  SentEmail.status row = sent ->
  SentEmail.cc_emails row <> Some [] /\ SentEmail.bcc_emails row <> Some [].
Proof.
  unfold submit. intros Hin Hst.
  destruct (handleSend email_ok f) as [|body] eqn:Hf; [destruct Hin|].
  destruct (sent_row_cc (with_body w body) body row eq_refl Hin Hst)
    as [-> ->].
  apply handleSend_Invoked in Hf as (_ & _ & _ & _ & ->). cbn.
  split; [destruct (parseEmails (Form.cc f))
         |destruct (parseEmails (Form.bcc f))]; cbn; discriminate.
Qed.

Lemma form_never_stores_empty_cc_witness :
  (In (EvInsert hello_row) (submit has_at world_hello typed_hello)
   /\ SentEmail.status hello_row = sent)
  /\ SentEmail.cc_emails hello_row <> Some []
  /\ SentEmail.bcc_emails hello_row <> Some [].
Proof.
  assert (H : In (EvInsert hello_row)
                (submit has_at world_hello typed_hello)).
  { vm_compute. do 6 right. left. reflexivity. }
  split; [split; [exact H|reflexivity]|].
  apply (form_never_stores_empty_cc has_at world_hello typed_hello _ H).
  reflexivity.
Defined.

Lemma or_default_nonempty (o : option string) (d : string) :
  d <> "" -> Js.or_default o d <> "".
Proof.
  intros Hd. destruct o as [s|]; cbn; [|exact Hd].
  destruct (String.eqb_spec s ""); assumption.
Qed.



(** ** Properties of the SMTP settings page *)

Lemma issue_if_nil (b : bool) (i : Issue) : issue_if b i = [] -> b = false.
Proof. destruct b; [discriminate|reflexivity]. Qed.

Lemma no_issues (email_ok : string -> bool) (d : FormData.t) :
  smtpSchema_issues email_ok d = [] ->
  FormData.config_name d <> ""
  /\ FormData.smtp_host d <> ""
  /\ (1 <= FormData.smtp_port d <= 65535)%Z
  /\ FormData.smtp_username d <> ""
  /\ FormData.smtp_password d <> ""
  /\ email_ok (FormData.from_email d) = true
  /\ is_some (FormData.from_name d) = true.
Proof.
  unfold smtpSchema_issues. intros H.
  repeat (apply app_eq_nil in H; destruct H as [?H H]).
  repeat match goal with
         | H : issue_if _ _ = [] |- _ => apply issue_if_nil in H
         end.
  repeat match goal with
         | H : String.eqb _ _ = false |- _ => apply String.eqb_neq in H
         | H : negb _ = false |- _ => apply negb_false_iff in H
         | H : (_ <? _)%Z = false |- _ => apply Z.ltb_ge in H
         end.
  repeat split; auto.
Qed.

Lemma handleSave_call (email_ok : string -> bool) (user : option User)
    (db_error : option Exn) (s : Settings.t) (toast : SaveToast)
    (call : DbCall) (s' : Settings.t) :
  handleSave email_ok user db_error s = (toast, Some call, s') ->
  smtpSchema_issues email_ok (formData s) = []
  /\ call = match Settings.editingConfig s with
            | Some editing => DbUpdate (SmtpConfig.id editing) (formData s)
            | None => DbInsert (formData s) (option_map id user)
            end.
Proof.
  unfold handleSave.
  destruct (smtpSchema_issues email_ok (formData s)); [|discriminate].
  destruct db_error; intros [= _ <- _]; auto.
Qed.

(** X20: [handleSave] writes to [smtp_configs] only data that passed
    [smtpSchema]: a non-empty name, host, user name and password, a port
    between 1 and 65535, a from address that passes the address check and a
    non-empty from name.  The name, host, user name, from address and from
    name are written trimmed; the password is written as typed. *)
Theorem handleSave_writes_valid_data (email_ok : string -> bool)
    (user : option User) (db_error : option Exn) (s : Settings.t)
    (toast : SaveToast) (call : DbCall) (s' : Settings.t) :
  handleSave email_ok user db_error s = (toast, Some call, s') ->
  let d := written call in
  FormData.config_name d <> ""
  /\ FormData.smtp_host d <> ""
  /\ (1 <= FormData.smtp_port d <= 65535)%Z
  /\ FormData.smtp_username d <> ""
  /\ FormData.smtp_password d <> ""
  /\ email_ok (FormData.from_email d) = true
  /\ (exists name, FormData.from_name d = Some name /\ name <> "")
  /\ Js.trim (FormData.config_name d) = FormData.config_name d
  /\ Js.trim (FormData.smtp_host d) = FormData.smtp_host d
  /\ Js.trim (FormData.smtp_username d) = FormData.smtp_username d
  /\ Js.trim (FormData.from_email d) = FormData.from_email d
  /\ FormData.from_name d = Some (Js.trim (Settings.fromName s))
  /\ FormData.smtp_password d = Settings.smtpPassword s.
Proof.
  intros H. apply handleSave_call in H as [Hok ->].
  assert (E : written
                match Settings.editingConfig s with
                | Some editing =>
                    DbUpdate (SmtpConfig.id editing) (formData s)
                | None => DbInsert (formData s) (option_map id user)
                end = formData s)
    by (destruct (Settings.editingConfig s); reflexivity).
  cbv zeta. rewrite E.
  apply no_issues in Hok as (H1 & H2 & H3 & H4 & H5 & H6 & H7).
  destruct (FormData.from_name (formData s)) as [name|] eqn:Hn;
    [|discriminate].
  cbn [formData FormData.from_name] in Hn.
  apply truthy_Some in Hn as [[= Hn] Hne].
  repeat split; auto; try apply trim_idem; try congruence;
    try apply H3.
  exists name. now split.
Qed.

Lemma handleSave_writes_valid_data_witness :
  handleSave has_at (Some alice) None alice_settings
  = (ConfigurationAdded,
     Some (DbInsert (formData alice_settings) (Some "user-alice")),
     resetForm (setIsDialogOpen false alice_settings))
  /\ let d := written (DbInsert (formData alice_settings)
                         (Some "user-alice")) in
     FormData.config_name d <> ""
     /\ FormData.smtp_host d <> ""
     /\ (1 <= FormData.smtp_port d <= 65535)%Z
     /\ FormData.smtp_username d <> ""
     /\ FormData.smtp_password d <> ""
     /\ has_at (FormData.from_email d) = true
     /\ (exists name, FormData.from_name d = Some name /\ name <> "")
     /\ Js.trim (FormData.config_name d) = FormData.config_name d
     /\ Js.trim (FormData.smtp_host d) = FormData.smtp_host d
     /\ Js.trim (FormData.smtp_username d) = FormData.smtp_username d
     /\ Js.trim (FormData.from_email d) = FormData.from_email d
     /\ FormData.from_name d = Some (Js.trim (Settings.fromName alice_settings))
     /\ FormData.smtp_password d = Settings.smtpPassword alice_settings.
Proof.
  assert (H : handleSave has_at (Some alice) None alice_settings
  = (ConfigurationAdded,
     Some (DbInsert (formData alice_settings) (Some "user-alice")),
     resetForm (setIsDialogOpen false alice_settings))) by reflexivity.
  split; [exact H|].
  apply (handleSave_writes_valid_data has_at (Some alice) None
           alice_settings _ _ _ H).
Defined.

(** X21: a save that fails, in validation or in the database, leaves the
    page as it was: nothing typed is lost and the dialog stays open; the
    toast of a database failure has a non-empty description.  A save that
    succeeds closes the dialog and resets every field to its default. *)
Theorem handleSave_state (email_ok : string -> bool)
    (user : option User) (db_error : option Exn) (s : Settings.t) :
  match handleSave email_ok user db_error s with
  | (ValidationError _, _, s') => s' = s
  | (SaveError description, _, s') =>
      s' = s /\ description <> "" /\ db_error <> None
  | (_, _, s') =>
      db_error = None
      /\ s' = {| Settings.configName := "";
                 Settings.smtpHost := "";
                 Settings.smtpPort := 587;
                 Settings.smtpUsername := "";
                 Settings.smtpPassword := "";
                 Settings.fromEmail := "";
                 Settings.fromName := "";
                 Settings.useTls := true;
                 Settings.isDefault := false;
                 Settings.editingConfig := None;
                 Settings.isDialogOpen := false |}
  end.
Proof.
  unfold handleSave.
  destruct (smtpSchema_issues email_ok (formData s)); [|reflexivity].
  destruct db_error as [e|].
  - repeat split; [|discriminate].
    apply or_default_nonempty. discriminate.
  - destruct (Settings.editingConfig s); split; reflexivity.
Qed.

Lemma or_default_Some (name : string) :
  name <> "" -> Js.or_default (Some name) "" = name.
Proof.
  intros H. cbn. destruct (String.eqb_spec name ""); [contradiction|].
  reflexivity.
Qed.

(** X22: round trip through the settings dialog: when a row of
    [smtp_configs] holds the data of a write [handleSave] asked for,
    opening the dialog on that row yields the same data again, and saving
    without touching anything asks for an update of that row with exactly
    that data. *)
Theorem reopen_and_save_is_identity (email_ok : string -> bool)
    (user user' : option User) (db_error : option Exn) (s : Settings.t)
    (toast : SaveToast) (call : DbCall) (s' : Settings.t)
    (config : SmtpConfig.t) :
  handleSave email_ok user db_error s = (toast, Some call, s') ->
  holds config (written call) ->
  formData (openEditDialog config) = written call
  /\ handleSave email_ok user' None (openEditDialog config)
     = (ConfigurationUpdated,
        Some (DbUpdate (SmtpConfig.id config) (written call)),
        resetForm (setIsDialogOpen false (openEditDialog config))).
Proof.
  intros H Hc.
  pose proof (handleSave_call _ _ _ _ _ _ _ H) as [Hok Hcall].
  assert (E : written call = formData s)
    by (rewrite Hcall; destruct (Settings.editingConfig s); reflexivity).
  rewrite E in *. clear Hcall E H.
  assert (F : formData (openEditDialog config) = formData s).
  { destruct Hc as (H1 & H2 & H3 & H4 & H5 & H6 & H7 & H8 & H9).
    apply no_issues in Hok as (_ & _ & _ & _ & _ & _ & Hn).
    cbn in *. unfold formData.
    cbn [openEditDialog Settings.configName Settings.smtpHost
         Settings.smtpPort Settings.smtpUsername Settings.smtpPassword
         Settings.fromEmail Settings.fromName Settings.useTls
         Settings.isDefault].
    rewrite H1, H2, H3, H4, H5, H6, H7, H8, H9, !trim_idem.
    destruct (String.eqb_spec (Js.trim (Settings.fromName s)) "");
      [discriminate|].
    rewrite or_default_Some, trim_idem by assumption.
    cbn. destruct (String.eqb_spec (Js.trim (Settings.fromName s)) "");
      [contradiction|]. reflexivity. }
  split; [exact F|].
  unfold handleSave. rewrite F, Hok. reflexivity.
Qed.


Lemma reopen_and_save_is_identity_witness :
  (handleSave has_at (Some alice) None alice_settings
   = (ConfigurationAdded,
      Some (DbInsert (formData alice_settings) (Some "user-alice")),
      resetForm (setIsDialogOpen false alice_settings))
   /\ holds alice_saved
        (written (DbInsert (formData alice_settings) (Some "user-alice"))))
  /\ formData (openEditDialog alice_saved)
     = written (DbInsert (formData alice_settings) (Some "user-alice"))
  /\ handleSave has_at (Some alice) None (openEditDialog alice_saved)
     = (ConfigurationUpdated,
        Some (DbUpdate (SmtpConfig.id alice_saved)
                (written (DbInsert (formData alice_settings)
                            (Some "user-alice")))),
        resetForm (setIsDialogOpen false (openEditDialog alice_saved))).
Proof.
  assert (H1 : handleSave has_at (Some alice) None alice_settings
   = (ConfigurationAdded,
      Some (DbInsert (formData alice_settings) (Some "user-alice")),
      resetForm (setIsDialogOpen false alice_settings))) by reflexivity.
  assert (H2 : holds alice_saved
        (written (DbInsert (formData alice_settings) (Some "user-alice"))))
    by (repeat split).
  split; [split; assumption|].
  apply (reopen_and_save_is_identity has_at (Some alice) (Some alice) None
           alice_settings _ _ _ alice_saved H1 H2).
Defined.

(** ** Properties of the sign-in page *)

(** X23: [handleSubmit] calls the identity provider only when the address
    passes the check and the password has at least 6 characters, and then
    once: [signIn] in login mode and [signUp] otherwise, with the address
    and the password exactly as typed.  Otherwise it calls nobody, shows
    no toast and sets an error for each field that failed. *)
Theorem handleSubmit_gate (email_ok : string -> bool)
    (answer : AuthAnswer) (f : AuthForm.t) :
  let '(errors, call, toast) := handleSubmit email_ok answer f in
  if email_ok (AuthForm.email f)
     && (6 <=? String.length (AuthForm.password f))%nat
  then
    errors = {| email_error := None; password_error := None |}
    /\ call = Some (if AuthForm.isLogin f
                    then SignIn (AuthForm.email f) (AuthForm.password f)
                    else SignUp (AuthForm.email f) (AuthForm.password f)
                           (AuthForm.displayName f))
    /\ is_some toast = true
  else
    call = None /\ toast = None
    /\ is_some (email_error errors) = negb (email_ok (AuthForm.email f))
    /\ is_some (password_error errors)
       = (String.length (AuthForm.password f) <? 6)%nat.
Proof.
  unfold handleSubmit, validateForm, no_errors.
  rewrite (Nat.ltb_antisym 6 (String.length (AuthForm.password f))).
  destruct (email_ok (AuthForm.email f));
    destruct (6 <=? String.length (AuthForm.password f))%nat;
    cbn [negb andb is_some email_error password_error];
    try (destruct (AuthForm.isLogin f)); auto.
Qed.
